(** * SceneManager: texture and material registries, shader state binder

    A shallow embedding of [Source/SceneManager.cpp].  The C++ object is a
    record that is passed explicitly; OpenGL, the shader manager and the image
    decoder are the collaborators of the class and are carried as explicit
    state (the GL context, the log of uniform writes) or as an environment
    (the decoder).  Operations that C++ leaves undefined (a call through a
    null [ShaderManager] pointer, an access outside [m_textureIDs]) end in
    [Undefined] instead of a value.

    Floats are IEEE-754 binary32 data and the arithmetic on them is the
    one of [SpecFloat] at precision 24; the cosine and sine of the C library
    are part of the environment.

    Console output ([std::cout], [std::cerr]) and the host memory of decoded
    images are not part of the model. *)

From Stdlib Require Import ZArith String List Bool Lia.
From Stdlib Require Import Floats.SpecFloat.
From stdpp Require Import base option list strings gmap.

Local Open Scope string_scope.
Local Open Scope Z_scope.

(** ** Outcomes of a call *)

Inductive fault : Type :=
| NullDereference   (* member call through a null pointer *)
| OutOfBounds       (* access outside a fixed-size array or a vector *)
| SignedOverflow    (* an [int] incremented past [INT_MAX] *)
| OutOfFuel.        (* the loop bound of the model was too small *)

Inductive outcome (A : Type) : Type :=
| Ok (a : A)
| Undefined (f : fault).
Arguments Ok {A} a.
Arguments Undefined {A} f.

Definition bind {A B : Type} (m : outcome A) (k : A -> outcome B) : outcome B :=
  match m with
  | Ok a => k a
  | Undefined f => Undefined f
  end.

Notation "'do' x <- m ; k" := (bind m (fun x => k))
  (at level 10, x name, m at level 100, k at level 200).
Notation "'do' ' p <- m ; k" := (bind m (fun x => match x with p => k end))
  (at level 10, p pattern, m at level 100, k at level 200).

(** [while (cond) body]: the condition is tested before every iteration,
    as in C++; [fuel] bounds the number of iterations. *)
Fixpoint while {S : Type} (fuel : nat) (cond : S -> bool)
    (body : S -> outcome S) (s : S) : outcome S :=
  if cond s then
    match fuel with
    | O => Undefined OutOfFuel
    | Datatypes.S fuel' => do s' <- body s; while fuel' cond body s'
    end
  else Ok s.

(** ** Scalars and vectors *)

(** A C++ [float]: an IEEE-754 binary32 datum.  The registries and the
    shader state binder only store and forward floats; the transform
    composer computes with them. *)
Definition float : Type := spec_float.

(** The finite positive binary32 value [m * 2^e]. *)
Definition f32 (m : positive) (e : Z) : float := S754_finite false m e.
Definition f32_zero : float := S754_zero false.

Record vec2 : Type := Vec2 { v2_x : float; v2_y : float }.
Record vec3 : Type := Vec3 { v3_x : float; v3_y : float; v3_z : float }.
Record vec4 : Type := Vec4 { v4_r : float; v4_g : float; v4_b : float; v4_a : float }.

(** A [glm::mat4]: four columns, as GLM stores it ([m[i]] is column [i]);
    the components [x y z w] of a column are the fields [r g b a] of
    [vec4]. *)
Record mat4 : Type := Mat4 { col0 : vec4; col1 : vec4; col2 : vec4; col3 : vec4 }.

(** [GLuint]: conversion of an [int] to the 32-bit unsigned type. *)
Definition GLuint_of_int (z : Z) : Z := z mod 2 ^ 32.

(** [index++] on an [int]: undefined past [INT_MAX]. *)
Definition INT_MAX : Z := 2 ^ 31 - 1.

Definition int_incr (i : Z) : outcome Z :=
  if i <? INT_MAX then Ok (i + 1) else Undefined SignedOverflow.

(** [arr[i]] and [arr[i].field = ...] on a C array or a [std::vector]:
    undefined outside the bounds. *)
Definition array_read {A : Type} (arr : list A) (i : Z) : outcome A :=
  if i <? 0 then Undefined OutOfBounds
  else match arr !! Z.to_nat i with
       | Some x => Ok x
       | None => Undefined OutOfBounds
       end.

Definition array_update {A : Type} (arr : list A) (i : Z) (f : A -> A)
    : outcome (list A) :=
  do x <- array_read arr i; Ok (<[Z.to_nat i := f x]> arr).

(** ** The registries' entries ([SceneManager.h]) *)

(** Modelled from the spec: the declaration of [TEXTURE_INFO] is in
    [SceneManager.h]; the fields are the ones the source reads and writes
    (a string tag and the GPU handle, a [GLuint] since its address is
    passed to [glGenTextures]). *)
Module TEXTURE_INFO.
Record t : Type := Build { tag : string; ID : Z }.
End TEXTURE_INFO.

(** Modelled from the spec: the declaration of [OBJECT_MATERIAL] is in
    [SceneManager.h]; the fields are the ones the source reads and writes. *)
Module OBJECT_MATERIAL.
Record t : Type := Build {
  diffuseColor : vec3;
  specularColor : vec3;
  shininess : float;
  tag : string
}.
End OBJECT_MATERIAL.

(** ** The shader collaborator *)

Inductive UniformValue : Type :=
| UInt (i : Z)
| UBool (b : bool)
| UFloat (f : float)
| UVec2 (v : vec2)
| UVec3 (v : vec3)
| UVec4 (v : vec4)
| USampler2D (unit : Z)
| UMat4 (m : mat4).

(** Modelled from the spec: the shader collaborator ([ShaderManager]) takes
    named uniform values through one setter per type, keyed by the uniform's
    name; it is written to and never read back, and the writes are
    last-wins.  The state kept here is the log of writes, newest first. *)
Record ShaderManager : Type := { writes : list (string * UniformValue) }.

Definition set_uniform (name : string) (v : UniformValue) (sh : ShaderManager)
    : ShaderManager :=
  {| writes := (name, v) :: writes sh |}.

Definition setIntValue (name : string) (v : Z) := set_uniform name (UInt v).
Definition setBoolValue (name : string) (v : bool) := set_uniform name (UBool v).
Definition setFloatValue (name : string) (v : float) := set_uniform name (UFloat v).
Definition setVec2Value (name : string) (v : vec2) := set_uniform name (UVec2 v).
Definition setVec3Value (name : string) (v : vec3) := set_uniform name (UVec3 v).
Definition setVec4Value (name : string) (v : vec4) := set_uniform name (UVec4 v).
Definition setSampler2DValue (name : string) (v : Z) := set_uniform name (USampler2D v).
Definition setMat4Value (name : string) (v : mat4) := set_uniform name (UMat4 v).

(** The uniform values a draw call observes: for every name the newest
    write ([list_to_map] keeps the entry nearest to the head). *)
Definition uniforms (sh : ShaderManager) : gmap string UniformValue :=
  list_to_map (writes sh).

(** ** Global names *)

Definition g_ModelName : string := "model".
Definition g_ColorValueName : string := "objectColor".
Definition g_TextureValueName : string := "objectTexture".
Definition g_UseTextureName : string := "bUseTexture".
Definition g_UseLightingName : string := "bUseLighting".

(** ** The OpenGL collaborator *)

Definition GL_TEXTURE_2D : Z := 0x0DE1.
Definition GL_TEXTURE_MAG_FILTER : Z := 0x2800.
Definition GL_TEXTURE_MIN_FILTER : Z := 0x2801.
Definition GL_TEXTURE_WRAP_S : Z := 0x2802.
Definition GL_TEXTURE_WRAP_T : Z := 0x2803.
Definition GL_REPEAT : Z := 0x2901.
Definition GL_LINEAR : Z := 0x2601.
Definition GL_RGB : Z := 0x1907.
Definition GL_RGBA : Z := 0x1908.
Definition GL_RGB8 : Z := 0x8051.
Definition GL_RGBA8 : Z := 0x8058.
Definition GL_UNSIGNED_BYTE : Z := 0x1401.
Definition GL_TEXTURE0 : Z := 0x84C0.

(** The calls the class makes into OpenGL, with their arguments.
    [glGenTextures n] stands for [glGenTextures(1, &x)] that stored the
    name [n] in [x]; [glDeleteTextures n] for [glDeleteTextures(1, &x)]
    with [x = n]. *)
Inductive GLCall : Type :=
| glGenTextures (name : Z)
| glDeleteTextures (name : Z)
| glBindTexture (target texture : Z)
| glTexParameteri (target pname param : Z)
| glTexImage2D (target level internalformat width height border format type : Z)
    (pixels : list Byte.byte)
| glGenerateMipmap (target : Z)
| glActiveTexture (texture : Z).

(** The GL context is the history of calls, newest first. *)
Definition GLContext : Type := list GLCall.

(** The texture names that were generated and not deleted since: the GPU
    texture resources the context holds. *)
Fixpoint live_textures (gl : GLContext) : list Z :=
  match gl with
  | [] => []
  | glGenTextures n :: older => n :: live_textures older
  | glDeleteTextures n :: older => filter (fun m => m <> n) (live_textures older)
  | _ :: older => live_textures older
  end.

(** ** The image decoder *)

(** What [stbi_load] hands back for a file it could parse. *)
Record DecodedImage : Type := {
  width : Z;
  height : Z;
  colorChannels : Z;
  image : list Byte.byte
}.

(** ** The scene manager *)

(** The members the registries and the shader state binder use.
    [m_pShaderManager] is [None] for a null pointer; the pointee is owned
    here since nothing else writes to it.  [m_textureIDs] is the array
    [TEXTURE_INFO m_textureIDs[16]]. *)
Record SceneManager : Type := {
  m_pShaderManager : option ShaderManager;
  m_textureIDs : list TEXTURE_INFO.t;
  m_loadedTextures : Z;
  m_objectMaterials : list OBJECT_MATERIAL.t
}.

Definition with_shader (sh : ShaderManager) (this : SceneManager) : SceneManager :=
  {| m_pShaderManager := Some sh;
     m_textureIDs := m_textureIDs this;
     m_loadedTextures := m_loadedTextures this;
     m_objectMaterials := m_objectMaterials this |}.

Definition with_textures (arr : list TEXTURE_INFO.t) (n : Z) (this : SceneManager)
    : SceneManager :=
  {| m_pShaderManager := m_pShaderManager this;
     m_textureIDs := arr;
     m_loadedTextures := n;
     m_objectMaterials := m_objectMaterials this |}.

Definition with_materials (ms : list OBJECT_MATERIAL.t) (this : SceneManager)
    : SceneManager :=
  {| m_pShaderManager := m_pShaderManager this;
     m_textureIDs := m_textureIDs this;
     m_loadedTextures := m_loadedTextures this;
     m_objectMaterials := ms |}.

Definition set_ID (id : Z) (e : TEXTURE_INFO.t) : TEXTURE_INFO.t :=
  TEXTURE_INFO.Build (TEXTURE_INFO.tag e) id.
Definition set_tag (tag : string) (e : TEXTURE_INFO.t) : TEXTURE_INFO.t :=
  TEXTURE_INFO.Build tag (TEXTURE_INFO.ID e).

(** [SceneManager::SceneManager]: sixteen entries tagged ["/0"] with the
    handle [-1] (as a [GLuint]), no texture loaded, no material defined. *)
Definition SceneManager_new (pShaderManager : option ShaderManager) : SceneManager :=
  {| m_pShaderManager := pShaderManager;
     m_textureIDs := replicate 16 (TEXTURE_INFO.Build "/0" (GLuint_of_int (-1)));
     m_loadedTextures := 0;
     m_objectMaterials := [] |}.

Section Environment.

(** The image decoder: what [stbi_load] returns for a file name (asked, as
    the class does, to flip the rows), [None] for the null pointer of a
    failed load. *)
Variable stbi_load : string -> option DecodedImage.

(** The name [glGenTextures] hands out, given the names in use. *)
Variable gen_texture_name : list Z -> Z.

(** [SceneManager::CreateGLTexture] *)
Definition CreateGLTexture (filename : string) (tag : string)
    (this : SceneManager) (gl : GLContext)
    : outcome (bool * SceneManager * GLContext) :=
  match stbi_load filename with
  | Some img =>
      let textureID := gen_texture_name (live_textures gl) in
      let gl := glGenTextures textureID :: gl in
      let gl := glBindTexture GL_TEXTURE_2D textureID :: gl in
      let gl := glTexParameteri GL_TEXTURE_2D GL_TEXTURE_WRAP_S GL_REPEAT :: gl in
      let gl := glTexParameteri GL_TEXTURE_2D GL_TEXTURE_WRAP_T GL_REPEAT :: gl in
      let gl := glTexParameteri GL_TEXTURE_2D GL_TEXTURE_MIN_FILTER GL_LINEAR :: gl in
      let gl := glTexParameteri GL_TEXTURE_2D GL_TEXTURE_MAG_FILTER GL_LINEAR :: gl in
      let register (gl : GLContext) :=
        let gl := glGenerateMipmap GL_TEXTURE_2D :: gl in
        let gl := glBindTexture GL_TEXTURE_2D 0 :: gl in
        do arr <- array_update (m_textureIDs this) (m_loadedTextures this)
                    (set_ID textureID);
        do arr <- array_update arr (m_loadedTextures this) (set_tag tag);
        do n <- int_incr (m_loadedTextures this);
        Ok (true, with_textures arr n this, gl) in
      if colorChannels img =? 3 then
        register (glTexImage2D GL_TEXTURE_2D 0 GL_RGB8 (width img) (height img) 0
                    GL_RGB GL_UNSIGNED_BYTE (image img) :: gl)
      else if colorChannels img =? 4 then
        register (glTexImage2D GL_TEXTURE_2D 0 GL_RGBA8 (width img) (height img) 0
                    GL_RGBA GL_UNSIGNED_BYTE (image img) :: gl)
      else Ok (false, this, gl)
  | None => Ok (false, this, gl)
  end.

(** [SceneManager::BindGLTextures] *)
Definition BindGLTextures (this : SceneManager) (gl : GLContext)
    : outcome GLContext :=
  do '(i, gl) <-
    while (Z.to_nat (m_loadedTextures this))
      (fun '(i, gl) => i <? m_loadedTextures this)
      (fun '(i, gl) =>
         let gl := glActiveTexture (GL_TEXTURE0 + i) :: gl in
         do entry <- array_read (m_textureIDs this) i;
         let gl := glBindTexture GL_TEXTURE_2D (TEXTURE_INFO.ID entry) :: gl in
         do i <- int_incr i;
         Ok (i, gl))
      (0, gl);
  Ok gl.

(** [SceneManager::DestroyGLTextures] *)
Definition DestroyGLTextures (this : SceneManager) (gl : GLContext)
    : outcome (SceneManager * GLContext) :=
  do '(i, arr, gl) <-
    while (Z.to_nat (m_loadedTextures this))
      (fun '(i, arr, gl) => i <? m_loadedTextures this)
      (fun '(i, arr, gl) =>
         let name := gen_texture_name (live_textures gl) in
         let gl := glGenTextures name :: gl in
         do arr <- array_update arr i (set_ID name);
         do i <- int_incr i;
         Ok (i, arr, gl))
      (0, m_textureIDs this, gl);
  Ok (with_textures arr (m_loadedTextures this) this, gl).

(** [SceneManager::LoadSceneTexture] *)
Definition LoadSceneTexture (this : SceneManager) (gl : GLContext)
    : outcome (SceneManager * GLContext) :=
  do '(bReturn, this, gl) <- CreateGLTexture "textures/rusticwood.jpg" "table" this gl;
  do '(bReturn, this, gl) <- CreateGLTexture "textures/drywall.jpg" "wall" this gl;
  do '(bReturn, this, gl) <- CreateGLTexture "textures/ball.jpg" "ball" this gl;
  do '(bReturn, this, gl) <- CreateGLTexture "textures/window.jpg" "window" this gl;
  do gl <- BindGLTextures this gl;
  Ok (this, gl).

(** The files [CreateGLTexture] can register: the decoder parses them and
    the image has three or four channels. *)
Definition loadable (filename : string) : bool :=
  match stbi_load filename with
  | Some img => (colorChannels img =? 3) || (colorChannels img =? 4)
  | None => false
  end.

(** A run of loads, as [LoadSceneTexture] issues them: (file name, tag). *)
Fixpoint load_textures (requests : list (string * string))
    (this : SceneManager) (gl : GLContext) : outcome (SceneManager * GLContext) :=
  match requests with
  | [] => Ok (this, gl)
  | (filename, tag) :: requests =>
      do '(bReturn, this, gl) <- CreateGLTexture filename tag this gl;
      load_textures requests this gl
  end.

(** The tags of the requests that can be registered, in order. *)
Definition loaded_tags (requests : list (string * string)) : list string :=
  snd <$> filter (fun request => loadable request.1 = true) requests.

End Environment.

(** [SceneManager::FindTextureSlot] *)
Definition FindTextureSlot (tag : string) (this : SceneManager) : outcome Z :=
  do '(index, bFound, textureSlot) <-
    while (Z.to_nat (m_loadedTextures this))
      (fun '(index, bFound, textureSlot) =>
         (index <? m_loadedTextures this) && Bool.eqb bFound false)
      (fun '(index, bFound, textureSlot) =>
         do entry <- array_read (m_textureIDs this) index;
         if String.eqb (TEXTURE_INFO.tag entry) tag
         then Ok (index, true, index)
         else do index <- int_incr index; Ok (index, bFound, textureSlot))
      (0, false, -1);
  Ok textureSlot.

(** [SceneManager::FindMaterial]: the result and the contents of the
    reference parameter [material] after the call. *)
Definition FindMaterial (tag : string) (material : OBJECT_MATERIAL.t)
    (this : SceneManager) : outcome (bool * OBJECT_MATERIAL.t) :=
  if Z.of_nat (length (m_objectMaterials this)) =? 0 then Ok (false, material)
  else
    do '(index, bFound, material) <-
      while (length (m_objectMaterials this))
        (fun '(index, bFound, material) =>
           (index <? Z.of_nat (length (m_objectMaterials this)))
           && Bool.eqb bFound false)
        (fun '(index, bFound, material) =>
           do entry <- array_read (m_objectMaterials this) index;
           if String.eqb (OBJECT_MATERIAL.tag entry) tag
           then Ok (index, true,
                    OBJECT_MATERIAL.Build
                      (OBJECT_MATERIAL.diffuseColor entry)
                      (OBJECT_MATERIAL.specularColor entry)
                      (OBJECT_MATERIAL.shininess entry)
                      (OBJECT_MATERIAL.tag material))
           else do index <- int_incr index; Ok (index, bFound, material))
        (0, false, material);
    Ok (true, material).

(** A member call through [m_pShaderManager]. *)
Definition deref (p : option ShaderManager) : outcome ShaderManager :=
  match p with
  | Some sh => Ok sh
  | None => Undefined NullDereference
  end.

(** [SceneManager::SetShaderColor] *)
Definition SetShaderColor (redColorValue greenColorValue blueColorValue alphaValue : float)
    (this : SceneManager) : outcome SceneManager :=
  let currentColor := Vec4 redColorValue greenColorValue blueColorValue alphaValue in
  match m_pShaderManager this with
  | Some sh =>
      let sh := setIntValue g_UseTextureName 0 sh in
      let sh := setVec4Value g_ColorValueName currentColor sh in
      Ok (with_shader sh this)
  | None => Ok this
  end.

(** [SceneManager::SetShaderTexture] *)
Definition SetShaderTexture (textureTag : string) (this : SceneManager)
    : outcome SceneManager :=
  match m_pShaderManager this with
  | Some sh =>
      let sh := setIntValue g_UseTextureName 1 sh in
      do textureID <- FindTextureSlot textureTag this;
      let sh := setSampler2DValue g_TextureValueName textureID sh in
      Ok (with_shader sh this)
  | None => Ok this
  end.

(** [SceneManager::SetTextureUVScale] *)
Definition SetTextureUVScale (u v : float) (this : SceneManager)
    : outcome SceneManager :=
  match m_pShaderManager this with
  | Some sh => Ok (with_shader (setVec2Value "UVscale" (Vec2 u v) sh) this)
  | None => Ok this
  end.

(** [SceneManager::SetShaderMaterial].  The local [OBJECT_MATERIAL material]
    is declared without an initialiser; [material] stands for what it holds
    before [FindMaterial] is called. *)
Definition SetShaderMaterial (materialTag : string) (material : OBJECT_MATERIAL.t)
    (this : SceneManager) : outcome SceneManager :=
  if 0 <? Z.of_nat (length (m_objectMaterials this)) then
    do '(bReturn, material) <- FindMaterial materialTag material this;
    if Bool.eqb bReturn true then
      do sh <- deref (m_pShaderManager this);
      let sh := setVec3Value "material.diffuseColor"
                  (OBJECT_MATERIAL.diffuseColor material) sh in
      let sh := setVec3Value "material.specularColor"
                  (OBJECT_MATERIAL.specularColor material) sh in
      let sh := setFloatValue "material.shininess"
                  (OBJECT_MATERIAL.shininess material) sh in
      Ok (with_shader sh this)
    else Ok this
  else Ok this.

(** [SceneManager::DefineObjectMaterials] *)
Definition basketballMaterial : OBJECT_MATERIAL.t :=
  OBJECT_MATERIAL.Build
    (Vec3 (f32 13421773 (-25)) (f32 13421773 (-25)) (f32 13421773 (-25)))  (* 0.4f *)
    (Vec3 (f32 11744051 (-24)) (f32 11744051 (-24)) (f32 10066330 (-24)))  (* 0.7f 0.7f 0.6f *)
    (f32 13631488 (-18))                                                   (* 52.0 *)
    "ball".

Definition woodMaterial : OBJECT_MATERIAL.t :=
  OBJECT_MATERIAL.Build
    (Vec3 (f32 13421773 (-26)) (f32 13421773 (-26)) (f32 10066330 (-25)))  (* 0.2f 0.2f 0.3f *)
    (Vec3 f32_zero f32_zero f32_zero)
    (f32 13421773 (-27))                                                   (* 0.1 *)
    "wood".

Definition mugMaterial : OBJECT_MATERIAL.t :=
  OBJECT_MATERIAL.Build
    (Vec3 (f32 13421773 (-24)) (f32 8388608 (-24)) (f32 10066330 (-25)))   (* 0.8f 0.5f 0.3f *)
    (Vec3 (f32 13421773 (-26)) (f32 13421773 (-26)) (f32 13421773 (-26)))  (* 0.2f *)
    (f32 10485760 (-20))                                                   (* 10.0 *)
    "mug".

Definition metalMaterial : OBJECT_MATERIAL.t :=
  OBJECT_MATERIAL.Build
    (Vec3 (f32 11744051 (-24)) (f32 11744051 (-24)) (f32 11744051 (-24)))  (* 0.7f *)
    (Vec3 (f32 8388608 (-23)) (f32 8388608 (-23)) (f32 8388608 (-23)))     (* 1.0f *)
    (f32 13107200 (-17))                                                   (* 100.0 *)
    "metal".

Definition push_back (m : OBJECT_MATERIAL.t) (this : SceneManager) : SceneManager :=
  with_materials (m_objectMaterials this ++ [m]) this.

Definition DefineObjectMaterials (this : SceneManager) : SceneManager :=
  let this := push_back basketballMaterial this in
  let this := push_back woodMaterial this in
  let this := push_back mugMaterial this in
  push_back metalMaterial this.

(** ** Derived notions used in the statements *)

(** The state the constructor establishes and every operation keeps: the
    array has its sixteen entries and the count stays within it. *)
Definition registry_wf (this : SceneManager) : Prop :=
  length (m_textureIDs this) = 16%nat /\ 0 <= m_loadedTextures this <= 16.

(** The registered part of the array, in insertion order. *)
Definition registered (this : SceneManager) : list TEXTURE_INFO.t :=
  take (Z.to_nat (m_loadedTextures this)) (m_textureIDs this).

Definition registered_tags (this : SceneManager) : list string :=
  TEXTURE_INFO.tag <$> registered this.

(** Position of the first occurrence of [tag], [-1] when there is none. *)
Definition slot_of (tag : string) (tags : list string) : Z :=
  match list_find (fun t => t = tag) tags with
  | Some (j, _) => Z.of_nat j
  | None => -1
  end.

(** What [FindMaterial] leaves in [material] when [entry] matches. *)
Definition copy_material (entry material : OBJECT_MATERIAL.t) : OBJECT_MATERIAL.t :=
  OBJECT_MATERIAL.Build
    (OBJECT_MATERIAL.diffuseColor entry)
    (OBJECT_MATERIAL.specularColor entry)
    (OBJECT_MATERIAL.shininess entry)
    (OBJECT_MATERIAL.tag material).

(** ** Flat colour and texture mode *)

(** The two appearance calls of a draw block. *)
Inductive BinderCall : Type :=
| CallSetShaderColor (redColorValue greenColorValue blueColorValue alphaValue : float)
| CallSetShaderTexture (textureTag : string).

Definition call (c : BinderCall) (this : SceneManager) : outcome SceneManager :=
  match c with
  | CallSetShaderColor cr cg cb ca => SetShaderColor cr cg cb ca this
  | CallSetShaderTexture textureTag => SetShaderTexture textureTag this
  end.

Fixpoint run_calls (cs : list BinderCall) (this : SceneManager) : outcome SceneManager :=
  match cs with
  | [] => Ok this
  | c :: cs => do this <- call c this; run_calls cs this
  end.

(** The value of [bUseTexture] the attached shader holds. *)
Definition texture_enabled (this : SceneManager) : option UniformValue :=
  match m_pShaderManager this with
  | Some sh => uniforms sh !! g_UseTextureName
  | None => None
  end.

Definition texture_mode (this : SceneManager) : Prop :=
  texture_enabled this = Some (UInt 1).
Definition flat_mode (this : SceneManager) : Prop :=
  texture_enabled this = Some (UInt 0).

(** The mode a call selects, as the integer it writes to [bUseTexture]. *)
Definition mode_of (c : BinderCall) : Z :=
  match c with
  | CallSetShaderColor _ _ _ _ => 0
  | CallSetShaderTexture _ => 1
  end.

(** ** Fixtures for the concrete runs *)

(** A decoder under which the four textures of the scene are RGB or RGBA
    images, one file is a single-channel image and any other file is
    missing. *)
Definition demo_image (channels : Z) : DecodedImage :=
  {| width := 1; height := 1; colorChannels := channels;
     image := replicate (Z.to_nat channels) Byte.xff |}.

Definition demo_stbi_load (filename : string) : option DecodedImage :=
  if String.eqb filename "textures/rusticwood.jpg" then Some (demo_image 3)
  else if String.eqb filename "textures/drywall.jpg" then Some (demo_image 3)
  else if String.eqb filename "textures/ball.jpg" then Some (demo_image 3)
  else if String.eqb filename "textures/window.jpg" then Some (demo_image 4)
  else if String.eqb filename "textures/gray.png" then Some (demo_image 1)
  else None.

(** A name allocator: one above the largest name in use. *)
Definition next_texture_name (in_use : list Z) : Z := 1 + foldr Z.max 0 in_use.

Definition demo_requests_before : list (string * string) :=
  [("textures/rusticwood.jpg", "table");
   ("textures/gray.png", "gray");
   ("textures/missing.jpg", "missing");
   ("textures/drywall.jpg", "wall")].

Definition demo_requests_after : list (string * string) :=
  [("textures/window.jpg", "window"); ("textures/ball.jpg", "ball")].

(** The scene manager and the GL context after one successful load. *)
Definition demo_one_loaded : SceneManager * GLContext :=
  match CreateGLTexture demo_stbi_load next_texture_name "textures/rusticwood.jpg"
          "table" (SceneManager_new None) [] with
  | Ok (_, this, gl) => (this, gl)
  | Undefined _ => (SceneManager_new None, [])
  end.

Definition demo_two_loaded : SceneManager * GLContext :=
  match CreateGLTexture demo_stbi_load next_texture_name "textures/drywall.jpg"
          "wall" demo_one_loaded.1 demo_one_loaded.2 with
  | Ok (_, this, gl) => (this, gl)
  | Undefined _ => (SceneManager_new None, [])
  end.

(** A second material tagged "ball", with the values of the mug. *)
Definition secondBallMaterial : OBJECT_MATERIAL.t :=
  OBJECT_MATERIAL.Build
    (OBJECT_MATERIAL.diffuseColor mugMaterial)
    (OBJECT_MATERIAL.specularColor mugMaterial)
    (OBJECT_MATERIAL.shininess mugMaterial)
    "ball".

(** ** The rest of the class *)

(** A [GLuint] read into an [int]: values from [2^31] on come out negative
    (modular conversion, the rule of C++20 and the behaviour of the usual
    compilers before it).  Meant for [u] in the range of [GLuint]. *)
Definition int_of_GLuint (u : Z) : Z := if u <? 2 ^ 31 then u else u - 2 ^ 32.

(** [SceneManager::FindTextureID] *)
Definition FindTextureID (tag : string) (this : SceneManager) : outcome Z :=
  do '(index, bFound, textureID) <-
    while (Z.to_nat (m_loadedTextures this))
      (fun '(index, bFound, textureID) =>
         (index <? m_loadedTextures this) && Bool.eqb bFound false)
      (fun '(index, bFound, textureID) =>
         do entry <- array_read (m_textureIDs this) index;
         if String.eqb (TEXTURE_INFO.tag entry) tag
         then Ok (index, true, int_of_GLuint (TEXTURE_INFO.ID entry))
         else do index <- int_incr index; Ok (index, bFound, textureID))
      (0, false, -1);
  Ok textureID.

(** The finite negative binary32 value [- m * 2^e]. *)
Definition f32_neg (m : positive) (e : Z) : float := S754_finite true m e.

(** [SceneManager::SetupSceneLights]: every call goes through
    [m_pShaderManager], without a null test. *)
Definition SetupSceneLights (this : SceneManager) : outcome SceneManager :=
  do sh <- deref (m_pShaderManager this);
  let sh := setBoolValue g_UseLightingName true sh in
  let sh := setVec3Value "directionalLight.direction"
              (Vec3 f32_zero (f32_neg 8388608 (-23)) (f32_neg 13421773 (-27))) sh in  (* 0.0f -1.0f -0.1f *)
  let sh := setVec3Value "directionalLight.ambient"
              (Vec3 (f32 13421773 (-24)) (f32 13421773 (-24)) (f32 10066330 (-24))) sh in  (* 0.8f 0.8f 0.6f *)
  let sh := setVec3Value "directionalLight.diffuse"
              (Vec3 (f32 9395241 (-27)) (f32 16106127 (-28)) (f32 10737418 (-28))) sh in  (* 0.07f 0.06f 0.04f *)
  let sh := setVec3Value "directionalLight.specular"
              (Vec3 (f32 8388608 (-23)) (f32 15099494 (-24)) (f32 10066330 (-24))) sh in  (* 1.0f 0.9f 0.6f *)
  let sh := setBoolValue "directionalLight.bActive" true sh in
  let sh := setVec3Value "pointLights[0].position"
              (Vec3 (f32_neg 8388608 (-21)) (f32 8388608 (-20)) f32_zero) sh in  (* -4.0f 8.0f 0.0f *)
  let sh := setVec3Value "pointLights[0].ambient"
              (Vec3 (f32 13421773 (-28)) (f32 13421773 (-28)) (f32 13421773 (-28))) sh in  (* 0.05f 0.05f 0.05f *)
  let sh := setVec3Value "pointLights[0].diffuse"
              (Vec3 (f32 10066330 (-25)) (f32 10066330 (-25)) (f32 13421773 (-27))) sh in  (* 0.3f 0.3f 0.1f *)
  let sh := setVec3Value "pointLights[0].specular"
              (Vec3 (f32 13421773 (-26)) (f32 13421773 (-26)) f32_zero) sh in  (* 0.2f 0.2f 0.0f *)
  let sh := setBoolValue "pointLights[0].bActive" true sh in
  let sh := setVec3Value "pointLights[1].position"
              (Vec3 (f32 8388608 (-21)) (f32 8388608 (-20)) f32_zero) sh in  (* 4.0f 8.0f 0.0f *)
  let sh := setVec3Value "pointLights[1].ambient"
              (Vec3 (f32 13421773 (-28)) (f32 13421773 (-28)) (f32 13421773 (-28))) sh in  (* 0.05f 0.05f 0.05f *)
  let sh := setVec3Value "pointLights[1].diffuse"
              (Vec3 (f32 10066330 (-25)) (f32 10066330 (-25)) (f32 13421773 (-27))) sh in  (* 0.3f 0.3f 0.1f *)
  let sh := setVec3Value "pointLights[1].specular"
              (Vec3 (f32 13421773 (-26)) (f32 13421773 (-26)) f32_zero) sh in  (* 0.2f 0.2f 0.0f *)
  let sh := setBoolValue "pointLights[1].bActive" true sh in
  let sh := setVec3Value "pointLights[2].position"
              (Vec3 (f32 15938355 (-22)) (f32 11534336 (-21)) (f32 8388608 (-21))) sh in  (* 3.8f 5.5f 4.0f *)
  let sh := setVec3Value "pointLights[2].ambient"
              (Vec3 (f32 13421773 (-28)) (f32 13421773 (-28)) (f32 13421773 (-28))) sh in  (* 0.05f 0.05f 0.05f *)
  let sh := setVec3Value "pointLights[2].diffuse"
              (Vec3 (f32 13421773 (-26)) (f32 13421773 (-26)) f32_zero) sh in  (* 0.2f 0.2f 0.0f *)
  let sh := setVec3Value "pointLights[2].specular"
              (Vec3 (f32 13421773 (-24)) (f32 13421773 (-24)) (f32 10066330 (-24))) sh in  (* 0.8f 0.8f 0.6f *)
  let sh := setBoolValue "pointLights[2].bActive" true sh in
  let sh := setVec3Value "pointLights[3].position"
              (Vec3 (f32 15938355 (-22)) (f32 14680064 (-22)) (f32 8388608 (-21))) sh in  (* 3.8f 3.5f 4.0f *)
  let sh := setVec3Value "pointLights[3].ambient"
              (Vec3 (f32 13421773 (-28)) (f32 13421773 (-28)) (f32 13421773 (-28))) sh in  (* 0.05f 0.05f 0.05f *)
  let sh := setVec3Value "pointLights[3].diffuse"
              (Vec3 (f32 13421773 (-26)) (f32 13421773 (-26)) f32_zero) sh in  (* 0.2f 0.2f 0.0f *)
  let sh := setVec3Value "pointLights[3].specular"
              (Vec3 (f32 13421773 (-24)) (f32 13421773 (-24)) (f32 10066330 (-24))) sh in  (* 0.8f 0.8f 0.6f *)
  let sh := setBoolValue "pointLights[3].bActive" true sh in
  let sh := setVec3Value "pointLights[4].position"
              (Vec3 (f32_neg 13421773 (-22)) (f32 12582912 (-21)) (f32_neg 8388608 (-21))) sh in  (* -3.2f 6.0f -4.0f *)
  let sh := setVec3Value "pointLights[4].ambient"
              (Vec3 (f32 13421773 (-28)) (f32 13421773 (-28)) (f32 13421773 (-28))) sh in  (* 0.05f 0.05f 0.05f *)
  let sh := setVec3Value "pointLights[4].diffuse"
              (Vec3 (f32 15099494 (-24)) (f32 15099494 (-24)) (f32 11744051 (-24))) sh in  (* 0.9f 0.9f 0.7f *)
  let sh := setVec3Value "pointLights[4].specular"
              (Vec3 (f32 13421773 (-26)) (f32 13421773 (-26)) f32_zero) sh in  (* 0.2f 0.2f 0.0f *)
  let sh := setBoolValue "pointLights[4].bActive" true sh in
  Ok (with_shader sh this).

(** The calls [PrepareScene] makes into the mesh collaborator
    ([m_basicMeshes], allocated by the constructor).  The meshes are kept
    as the history of these calls, newest first; what the collaborator does
    with OpenGL for its vertex buffers is its own business and is not part
    of [GLContext]. *)
Inductive MeshCall : Type :=
| LoadPlaneMesh
| LoadSphereMesh
| LoadCylinderMesh
| LoadTorusMesh
| LoadBoxMesh.

Section Preparation.

Variable stbi_load : string -> option DecodedImage.
Variable gen_texture_name : list Z -> Z.

(** [SceneManager::PrepareScene] *)
Definition PrepareScene (this : SceneManager) (gl : GLContext)
    (meshes : list MeshCall)
    : outcome (SceneManager * GLContext * list MeshCall) :=
  do '(this, gl) <- LoadSceneTexture stbi_load gen_texture_name this gl;
  let meshes := LoadPlaneMesh :: meshes in
  let meshes := LoadSphereMesh :: meshes in
  let meshes := LoadCylinderMesh :: meshes in
  let meshes := LoadTorusMesh :: meshes in
  let meshes := LoadBoxMesh :: meshes in
  let this := DefineObjectMaterials this in
  do this <- SetupSceneLights this;
  Ok (this, gl, meshes).

End Preparation.

(** ** The transform composer *)

(** Binary32 arithmetic, rounding to nearest even. *)
Definition fadd : float -> float -> float := SFadd 24 128.
Definition fsub : float -> float -> float := SFsub 24 128.
Definition fmul : float -> float -> float := SFmul 24 128.
Definition fdiv : float -> float -> float := SFdiv 24 128.
Definition fsqrt : float -> float := SFsqrt 24 128.

Definition f32_one : float := f32 8388608 (-23).

(** [v * s] and [a + b] on [glm::vec4], component by component. *)
Definition vec4_mul_scalar (v : vec4) (s : float) : vec4 :=
  Vec4 (fmul (v4_r v) s) (fmul (v4_g v) s) (fmul (v4_b v) s) (fmul (v4_a v) s).

Definition vec4_add (u v : vec4) : vec4 :=
  Vec4 (fadd (v4_r u) (v4_r v)) (fadd (v4_g u) (v4_g v))
       (fadd (v4_b u) (v4_b v)) (fadd (v4_a u) (v4_a v)).

(** [glm::mat4(1.0f)] *)
Definition mat4_identity : mat4 :=
  Mat4 (Vec4 f32_one f32_zero f32_zero f32_zero)
       (Vec4 f32_zero f32_one f32_zero f32_zero)
       (Vec4 f32_zero f32_zero f32_one f32_zero)
       (Vec4 f32_zero f32_zero f32_zero f32_one).

(** Modelled from the spec: GLM is not under [src/].  The product of two
    4x4 matrices as GLM's [operator*] computes it: column [j] of the result
    is [m1[0] * m2[j][0] + m1[1] * m2[j][1] + m1[2] * m2[j][2]
    + m1[3] * m2[j][3]], summed from the left. *)
Definition mat4_mul (m1 m2 : mat4) : mat4 :=
  let column (b : vec4) :=
    vec4_add
      (vec4_add
         (vec4_add (vec4_mul_scalar (col0 m1) (v4_r b))
                   (vec4_mul_scalar (col1 m1) (v4_g b)))
         (vec4_mul_scalar (col2 m1) (v4_b b)))
      (vec4_mul_scalar (col3 m1) (v4_a b)) in
  Mat4 (column (col0 m2)) (column (col1 m2)) (column (col2 m2)) (column (col3 m2)).

(** Modelled from the spec: a matrix applied to a point in homogeneous
    coordinates, GLM's [mat4 * vec4]:
    [(m[0] * v.x + m[1] * v.y) + (m[2] * v.z + m[3] * v.w)]. *)
Definition mat4_mul_vec4 (m : mat4) (v : vec4) : vec4 :=
  vec4_add
    (vec4_add (vec4_mul_scalar (col0 m) (v4_r v)) (vec4_mul_scalar (col1 m) (v4_g v)))
    (vec4_add (vec4_mul_scalar (col2 m) (v4_b v)) (vec4_mul_scalar (col3 m) (v4_a v))).

(** Modelled from the spec: [glm::radians], degrees times the binary32
    nearest to pi/180. *)
Definition glm_radians (degrees : float) : float :=
  fmul degrees (f32 9370165 (-29)).

(** Modelled from the spec: [glm::scale(v)], the identity with column [i]
    multiplied by [v[i]]. *)
Definition glm_scale (v : vec3) : mat4 :=
  Mat4 (vec4_mul_scalar (col0 mat4_identity) (v3_x v))
       (vec4_mul_scalar (col1 mat4_identity) (v3_y v))
       (vec4_mul_scalar (col2 mat4_identity) (v3_z v))
       (col3 mat4_identity).

(** Modelled from the spec: [glm::translate(v)], the identity with the last
    column [m[0] * v[0] + m[1] * v[1] + m[2] * v[2] + m[3]]. *)
Definition glm_translate (v : vec3) : mat4 :=
  Mat4 (col0 mat4_identity) (col1 mat4_identity) (col2 mat4_identity)
       (vec4_add
          (vec4_add
             (vec4_add (vec4_mul_scalar (col0 mat4_identity) (v3_x v))
                       (vec4_mul_scalar (col1 mat4_identity) (v3_y v)))
             (vec4_mul_scalar (col2 mat4_identity) (v3_z v)))
          (col3 mat4_identity)).

(** Modelled from the spec: [glm::normalize] on a [vec3],
    [v * (1 / sqrt(dot(v, v)))]. *)
Definition glm_normalize (v : vec3) : vec3 :=
  let dot := fadd (fadd (fmul (v3_x v) (v3_x v)) (fmul (v3_y v) (v3_y v)))
                  (fmul (v3_z v) (v3_z v)) in
  let inversesqrt := fdiv f32_one (fsqrt dot) in
  Vec3 (fmul (v3_x v) inversesqrt) (fmul (v3_y v) inversesqrt)
       (fmul (v3_z v) inversesqrt).

Section Transform.

(** The cosine and the sine of the C library on [float]. *)
Variable cosf : float -> float.
Variable sinf : float -> float.

(** Modelled from the spec: [glm::rotate(angle, v)], the rotation by
    [angle] radians about the axis [v], with GLM's formula for the entries
    (axis-angle form, [c = cos(angle)], [s = sin(angle)],
    [temp = (1 - c) * axis]) applied to the identity. *)
Definition glm_rotate (angle : float) (v : vec3) : mat4 :=
  let c := cosf angle in
  let s := sinf angle in
  let axis := glm_normalize v in
  let temp := Vec3 (fmul (fsub f32_one c) (v3_x axis))
                   (fmul (fsub f32_one c) (v3_y axis))
                   (fmul (fsub f32_one c) (v3_z axis)) in
  let r00 := fadd c (fmul (v3_x temp) (v3_x axis)) in
  let r01 := fadd (fmul (v3_x temp) (v3_y axis)) (fmul s (v3_z axis)) in
  let r02 := fsub (fmul (v3_x temp) (v3_z axis)) (fmul s (v3_y axis)) in
  let r10 := fsub (fmul (v3_y temp) (v3_x axis)) (fmul s (v3_z axis)) in
  let r11 := fadd c (fmul (v3_y temp) (v3_y axis)) in
  let r12 := fadd (fmul (v3_y temp) (v3_z axis)) (fmul s (v3_x axis)) in
  let r20 := fadd (fmul (v3_z temp) (v3_x axis)) (fmul s (v3_y axis)) in
  let r21 := fsub (fmul (v3_z temp) (v3_y axis)) (fmul s (v3_x axis)) in
  let r22 := fadd c (fmul (v3_z temp) (v3_z axis)) in
  let column (a b c : float) :=
    vec4_add
      (vec4_add (vec4_mul_scalar (col0 mat4_identity) a)
                (vec4_mul_scalar (col1 mat4_identity) b))
      (vec4_mul_scalar (col2 mat4_identity) c) in
  Mat4 (column r00 r01 r02) (column r10 r11 r12) (column r20 r21 r22)
       (col3 mat4_identity).

(** The local [modelView] of [SetTransformations]. *)
Definition modelView (scaleXYZ : vec3)
    (XrotationDegrees YrotationDegrees ZrotationDegrees : float)
    (positionXYZ : vec3) : mat4 :=
  let scale := glm_scale scaleXYZ in
  let rotationX := glm_rotate (glm_radians XrotationDegrees)
                     (Vec3 f32_one f32_zero f32_zero) in
  let rotationY := glm_rotate (glm_radians YrotationDegrees)
                     (Vec3 f32_zero f32_one f32_zero) in
  let rotationZ := glm_rotate (glm_radians ZrotationDegrees)
                     (Vec3 f32_zero f32_zero f32_one) in
  let translation := glm_translate positionXYZ in
  mat4_mul (mat4_mul (mat4_mul (mat4_mul translation rotationZ) rotationY) rotationX)
           scale.

(** [SceneManager::SetTransformations] *)
Definition SetTransformations (scaleXYZ : vec3)
    (XrotationDegrees YrotationDegrees ZrotationDegrees : float)
    (positionXYZ : vec3) (this : SceneManager) : outcome SceneManager :=
  let modelView :=
    modelView scaleXYZ XrotationDegrees YrotationDegrees ZrotationDegrees
      positionXYZ in
  match m_pShaderManager this with
  | Some sh => Ok (with_shader (setMat4Value g_ModelName modelView sh) this)
  | None => Ok this
  end.

End Transform.

(** [x] is within [2^-20] of [target]. *)
Definition approximately (x target : float) : bool :=
  SFleb (SFabs (fsub x target)) (f32 8388608 (-43)).

(** The binary32 nearest to the cosine of [glm_radians 90.0f]
    (about -4.371139e-08). *)
Definition cos_radians_90 : float := f32_neg 12303662 (-48).

(** 90.0f and 2.0f *)
Definition f32_ninety : float := f32 11796480 (-17).
Definition f32_two : float := f32 8388608 (-22).

(** A cosine and a sine for the concrete runs: exact at 0, and at every
    other argument the values of the C library at [glm_radians 90.0f]. *)
Definition demo_cosf (x : float) : float :=
  if SFeqb x f32_zero then f32_one else cos_radians_90.
Definition demo_sinf (x : float) : float :=
  if SFeqb x f32_zero then f32_zero else f32_one.

(** ** Reading the GL history *)

(** The active texture unit: the argument of the newest [glActiveTexture],
    [GL_TEXTURE0] in a fresh context.  (The units the class selects,
    [GL_TEXTURE0 + i] with [i < 16], are taken to exist.) *)
Fixpoint active_texture (gl : GLContext) : Z :=
  match gl with
  | [] => GL_TEXTURE0
  | glActiveTexture texture :: _ => texture
  | _ :: older => active_texture older
  end.

(** The texture bound to [GL_TEXTURE_2D] on a unit: the newest
    [glBindTexture] made while the unit was active, 0 in a fresh context
    and after the bound texture was deleted. *)
Fixpoint texture_binding_2d (gl : GLContext) (unit : Z) : Z :=
  match gl with
  | [] => 0
  | glBindTexture target texture :: older =>
      if (target =? GL_TEXTURE_2D) && (active_texture older =? unit) then texture
      else texture_binding_2d older unit
  | glDeleteTextures name :: older =>
      if texture_binding_2d older unit =? name then 0
      else texture_binding_2d older unit
  | _ :: older => texture_binding_2d older unit
  end.

(** ** Derived notions for the further properties *)

(** The value the attached shader holds for a uniform name. *)
Definition uniform_of (this : SceneManager) (name : string) : option UniformValue :=
  match m_pShaderManager this with
  | Some sh => uniforms sh !! name
  | None => None
  end.

(** The four operations of the shader state binder. *)
Inductive BinderOp : Type :=
| OpSetShaderColor (redColorValue greenColorValue blueColorValue alphaValue : float)
| OpSetShaderTexture (textureTag : string)
| OpSetTextureUVScale (u v : float)
| OpSetShaderMaterial (materialTag : string) (material : OBJECT_MATERIAL.t).

Definition run_op (op : BinderOp) (this : SceneManager) : outcome SceneManager :=
  match op with
  | OpSetShaderColor cr cg cb ca => SetShaderColor cr cg cb ca this
  | OpSetShaderTexture textureTag => SetShaderTexture textureTag this
  | OpSetTextureUVScale u v => SetTextureUVScale u v this
  | OpSetShaderMaterial materialTag material => SetShaderMaterial materialTag material this
  end.

(** The uniform names an operation writes to. *)
Definition written_names (op : BinderOp) : list string :=
  match op with
  | OpSetShaderColor _ _ _ _ => [g_UseTextureName; g_ColorValueName]
  | OpSetShaderTexture _ => [g_UseTextureName; g_TextureValueName]
  | OpSetTextureUVScale _ _ => ["UVscale"]
  | OpSetShaderMaterial _ _ =>
      ["material.diffuseColor"; "material.specularColor"; "material.shininess"]
  end.

(** Every registered handle names a texture the GL context holds. *)
Definition handles_live (this : SceneManager) (gl : GLContext) : Prop :=
  forall e, e ∈ registered this -> TEXTURE_INFO.ID e ∈ live_textures gl.

(** The file names and tags of [LoadSceneTexture], in the order of its
    calls. *)
Definition scene_textures : list (string * string) :=
  [("textures/rusticwood.jpg", "table");
   ("textures/drywall.jpg", "wall");
   ("textures/ball.jpg", "ball");
   ("textures/window.jpg", "window")].

(** The GL calls of [CreateGLTexture] up to the test of the channel count,
    newest first. *)
Definition texture_setup_calls (textureID : Z) : list GLCall :=
  [glTexParameteri GL_TEXTURE_2D GL_TEXTURE_MAG_FILTER GL_LINEAR;
   glTexParameteri GL_TEXTURE_2D GL_TEXTURE_MIN_FILTER GL_LINEAR;
   glTexParameteri GL_TEXTURE_2D GL_TEXTURE_WRAP_T GL_REPEAT;
   glTexParameteri GL_TEXTURE_2D GL_TEXTURE_WRAP_S GL_REPEAT;
   glBindTexture GL_TEXTURE_2D textureID;
   glGenTextures textureID].

(** The GL calls of [CreateGLTexture] from the upload on, newest first. *)
Definition texture_upload_calls (img : DecodedImage) : list GLCall :=
  [glBindTexture GL_TEXTURE_2D 0;
   glGenerateMipmap GL_TEXTURE_2D;
   if colorChannels img =? 3
   then glTexImage2D GL_TEXTURE_2D 0 GL_RGB8 (width img) (height img) 0
          GL_RGB GL_UNSIGNED_BYTE (image img)
   else glTexImage2D GL_TEXTURE_2D 0 GL_RGBA8 (width img) (height img) 0
          GL_RGBA GL_UNSIGNED_BYTE (image img)].

(** ** Fixtures for the further properties *)

Definition demo_shader : ShaderManager := {| writes := [] |}.

(** A scene manager with a shader, after [LoadSceneTexture]. *)
Definition demo_textured : SceneManager * GLContext :=
  match LoadSceneTexture demo_stbi_load next_texture_name
          (SceneManager_new (Some demo_shader)) [] with
  | Ok (this, gl) => (this, gl)
  | Undefined _ => (SceneManager_new None, [])
  end.

(** The scene manager and the GL context after a run with failed loads. *)
Definition demo_run : SceneManager * GLContext :=
  match load_textures demo_stbi_load next_texture_name demo_requests_before
          (SceneManager_new None) [] with
  | Ok (this, gl) => (this, gl)
  | Undefined _ => (SceneManager_new None, [])
  end.

(** The scene manager after [SetShaderMaterial "wood"]. *)
Definition demo_after_material : SceneManager :=
  match run_op (OpSetShaderMaterial "wood" mugMaterial)
          (DefineObjectMaterials (SceneManager_new (Some demo_shader))) with
  | Ok this => this
  | Undefined _ => SceneManager_new None
  end.

(** ** The linear scan shared by the lookups *)

Section Scan.
Context {A R : Type}.
Variable arr : list A.
Variable n : Z.
Variable key : A -> string.
Variable tag : string.
Variable hit : Z -> A -> R -> R.

Let cond : Z * bool * R -> bool :=
  fun '(index, bFound, res) => (index <? n) && Bool.eqb bFound false.
Let body : Z * bool * R -> outcome (Z * bool * R) :=
  fun '(index, bFound, res) =>
    do entry <- array_read arr index;
    if String.eqb (key entry) tag
    then Ok (index, true, hit index entry res)
    else do index <- int_incr index; Ok (index, bFound, res).

Hypothesis n_le_length : n <= Z.of_nat (length arr).
Hypothesis n_le_INT_MAX : n <= INT_MAX.

Lemma scan_while (k : nat) :
  forall (fuel : nat) (index : Z) (res : R),
    (k <= fuel)%nat -> 0 <= index -> index + Z.of_nat k = n ->
    while fuel cond body (index, false, res) =
    Ok (match list_find (fun e => key e = tag) (take k (drop (Z.to_nat index) arr)) with
        | Some (j, e) => (index + Z.of_nat j, true, hit (index + Z.of_nat j) e res)
        | None => (n, false, res)
        end).
Proof.
  induction k as [|k IH]; intros fuel index res Hfuel Hindex Hsum.
  - rewrite take_0. cbn [list_find].
    assert (index = n) as -> by lia.
    destruct fuel; cbn; rewrite Z.ltb_irrefl; reflexivity.
  - destruct fuel as [|fuel]; [lia|].
    assert (Hlt : index < n) by lia.
    destruct (lookup_lt_is_Some_2 arr (Z.to_nat index)) as [e He]; [lia|].
    rewrite (drop_S _ _ _ He). rewrite firstn_cons.
    cbn [while cond body].
    replace (index <? n) with true by (symmetry; apply Z.ltb_lt; lia).
    cbn [andb Bool.eqb].
    unfold array_read.
    replace (index <? 0) with false by (symmetry; apply Z.ltb_ge; lia).
    rewrite He. cbn [bind].
    cbn [list_find].
    destruct (String.eqb_spec (key e) tag) as [Heq|Hne].
    + rewrite decide_True by exact Heq.
      rewrite Z.add_0_r.
      destruct fuel; cbn; rewrite andb_false_r; reflexivity.
    + rewrite decide_False by exact Hne.
      unfold int_incr.
      replace (index <? INT_MAX) with true by (symmetry; apply Z.ltb_lt; lia).
      cbn [bind].
      rewrite (IH fuel (index + 1) res) by lia.
      replace (Z.to_nat (index + 1)) with (S (Z.to_nat index)) by lia.
      destruct (list_find _ _) as [[j e']|]; cbn.
      * replace (index + 1 + Z.of_nat j) with (index + Z.of_nat (S j)) by lia.
        reflexivity.
      * reflexivity.
Qed.

End Scan.

(** ** The lookups as list functions *)

Lemma slot_of_registered (tag : string) (this : SceneManager) :
slot_of tag (registered_tags this) =
match list_find (fun e => TEXTURE_INFO.tag e = tag) (registered this) with
| Some (j, _) => Z.of_nat j
| None => -1
end.
Proof.
unfold slot_of, registered_tags. rewrite list_find_fmap.
unfold compose. destruct (list_find _ (registered this)) as [[j e]|]; reflexivity.
Qed.

(** [FindTextureSlot] returns the position of the first registered entry
  with the tag, or [-1]. *)
Lemma FindTextureSlot_spec (tag : string) (this : SceneManager) :
registry_wf this ->
FindTextureSlot tag this = Ok (slot_of tag (registered_tags this)).
Proof.
intros [Hlen Hn]. unfold FindTextureSlot.
pose proof (scan_while (m_textureIDs this) (m_loadedTextures this)
              TEXTURE_INFO.tag tag (fun index _ _ => index)) as Hscan.
cbv beta in Hscan.
rewrite (Hscan ltac:(lia) ltac:(unfold INT_MAX; lia)
           (Z.to_nat (m_loadedTextures this)) _ 0 (-1)) by lia.
cbn [bind]. rewrite slot_of_registered. unfold registered.
cbn [Z.to_nat drop].
destruct (list_find _ _) as [[j e]|]; reflexivity.
Qed.

(** [FindMaterial] copies the first entry with the tag; its result is
  [false] only on an empty registry. *)
Lemma FindMaterial_spec (tag : string) (material : OBJECT_MATERIAL.t)
  (this : SceneManager) :
Z.of_nat (length (m_objectMaterials this)) <= INT_MAX ->
FindMaterial tag material this =
Ok (match m_objectMaterials this with
    | [] => (false, material)
    | _ :: _ =>
        (true,
         match list_find (fun e => OBJECT_MATERIAL.tag e = tag)
                 (m_objectMaterials this) with
         | Some (_, entry) => copy_material entry material
         | None => material
         end)
    end).
Proof.
intros Hmax. unfold FindMaterial.
destruct (m_objectMaterials this) as [|m ms] eqn:Hms; [reflexivity|].
rewrite <- Hms in *.
replace (Z.of_nat (length (m_objectMaterials this)) =? 0) with false
  by (symmetry; apply Z.eqb_neq; rewrite Hms; cbn [length]; lia).
pose proof (scan_while (m_objectMaterials this)
              (Z.of_nat (length (m_objectMaterials this)))
              OBJECT_MATERIAL.tag tag (fun _ entry material => copy_material entry material))
  as Hscan.
cbv beta in Hscan. unfold copy_material in Hscan at 1.
rewrite (Hscan ltac:(lia) Hmax (length (m_objectMaterials this)) _ 0 material) by lia.
cbn [bind Z.to_nat drop]. rewrite firstn_all.
destruct (list_find _ _) as [[j e]|]; reflexivity.
Qed.

(** ** Lookups without a matching entry *)

Lemma slot_of_not_found (tag : string) (tags : list string) :
tag ∉ tags -> slot_of tag tags = -1.
Proof.
intros Hnot. unfold slot_of.
destruct (list_find _ tags) as [[j t]|] eqn:Hfind; [|reflexivity].
apply list_find_Some in Hfind as (Hj & -> & _).
exfalso. apply Hnot. eapply list_elem_of_lookup_2. exact Hj.
Qed.

(** A texture-slot lookup without a matching registered entry returns the
  sentinel [-1], on an empty registry too. *)
Lemma FindTextureSlot_not_found (tag : string) (this : SceneManager) :
registry_wf this -> tag ∉ registered_tags this ->
FindTextureSlot tag this = Ok (-1).
Proof.
intros Hwf Hnot. rewrite FindTextureSlot_spec by exact Hwf.
rewrite slot_of_not_found by exact Hnot. reflexivity.
Qed.

(** On an empty material registry the lookup returns [false] and leaves
  [material] alone. *)
Lemma FindMaterial_empty (tag : string) (material : OBJECT_MATERIAL.t)
  (this : SceneManager) :
m_objectMaterials this = [] ->
FindMaterial tag material this = Ok (false, material).
Proof. intros Hempty. unfold FindMaterial. rewrite Hempty. reflexivity. Qed.

(** On a registry that has entries but none with the tag, the lookup still
  returns [true]; [material] is left as it was. *)
Lemma FindMaterial_unmatched (tag : string) (material : OBJECT_MATERIAL.t)
  (this : SceneManager) :
m_objectMaterials this <> [] ->
Z.of_nat (length (m_objectMaterials this)) <= INT_MAX ->
(forall e, e ∈ m_objectMaterials this -> OBJECT_MATERIAL.tag e <> tag) ->
FindMaterial tag material this = Ok (true, material).
Proof.
intros Hne Hmax Hnone. rewrite FindMaterial_spec by exact Hmax.
destruct (m_objectMaterials this) as [|m ms] eqn:Hms; [congruence|].
destruct (list_find _ (m :: ms)) as [[j e]|] eqn:Hfind; [|reflexivity].
apply list_find_Some in Hfind as (Hj & Htag & _).
exfalso. apply (Hnone e); [|exact Htag].
eapply list_elem_of_lookup_2. exact Hj.
Qed.

(** C1 (evaluation at the failing input).  With the four materials of
  [DefineObjectMaterials] defined, [FindMaterial] for the tag "glass",
  which no entry carries, returns [true] rather than [false], and hands
  back [material] as the caller passed it. *)
Theorem FindMaterial_unmatched_tag_reports_true :
forall material : OBJECT_MATERIAL.t,
  FindMaterial "glass" material (DefineObjectMaterials (SceneManager_new None))
  = Ok (true, material).
Proof. intros material. reflexivity. Qed.

(** ** The material binding *)

(** With an empty registry [SetShaderMaterial] writes nothing. *)
Lemma SetShaderMaterial_empty (materialTag : string) (material : OBJECT_MATERIAL.t)
  (this : SceneManager) :
m_objectMaterials this = [] ->
SetShaderMaterial materialTag material this = Ok this.
Proof. intros Hempty. unfold SetShaderMaterial. rewrite Hempty. reflexivity. Qed.

(** With entries but no match, and a shader attached, the three material
  uniforms are written from the uninitialised local. *)
Lemma SetShaderMaterial_unmatched (materialTag : string) (material : OBJECT_MATERIAL.t)
  (this : SceneManager) (sh : ShaderManager) :
m_objectMaterials this <> [] ->
Z.of_nat (length (m_objectMaterials this)) <= INT_MAX ->
(forall e, e ∈ m_objectMaterials this -> OBJECT_MATERIAL.tag e <> materialTag) ->
m_pShaderManager this = Some sh ->
SetShaderMaterial materialTag material this =
Ok (with_shader
      {| writes :=
           ("material.shininess", UFloat (OBJECT_MATERIAL.shininess material))
           :: ("material.specularColor", UVec3 (OBJECT_MATERIAL.specularColor material))
           :: ("material.diffuseColor", UVec3 (OBJECT_MATERIAL.diffuseColor material))
           :: writes sh |}
      this).
Proof.
intros Hne Hmax Hnone Hsh. unfold SetShaderMaterial.
rewrite FindMaterial_unmatched by assumption.
destruct (m_objectMaterials this) as [|m ms]; [congruence|].
cbn [length]. replace (0 <? Z.of_nat (S (length ms))) with true
  by (symmetry; apply Z.ltb_lt; lia).
cbn [bind Bool.eqb]. rewrite Hsh. reflexivity.
Qed.

(** C2 (evaluation at the failing input).  With the four materials of
  [DefineObjectMaterials] defined and a shader attached,
  [SetShaderMaterial "glass"], whose tag resolves to no entry, performs
  three uniform writes, with the contents of the uninitialised local. *)
Theorem SetShaderMaterial_unmatched_tag_writes_uniforms :
forall (material : OBJECT_MATERIAL.t) (sh : ShaderManager),
  SetShaderMaterial "glass" material
    (DefineObjectMaterials (SceneManager_new (Some sh)))
  = Ok (DefineObjectMaterials
          (SceneManager_new
             (Some {| writes :=
                        ("material.shininess",
                         UFloat (OBJECT_MATERIAL.shininess material))
                        :: ("material.specularColor",
                            UVec3 (OBJECT_MATERIAL.specularColor material))
                        :: ("material.diffuseColor",
                            UVec3 (OBJECT_MATERIAL.diffuseColor material))
                        :: writes sh |}))).
Proof. intros material sh. reflexivity. Qed.

(** ** The binder without a shader *)

Lemma SetShaderColor_null (cr cg cb ca : float) (this : SceneManager) :
m_pShaderManager this = None -> SetShaderColor cr cg cb ca this = Ok this.
Proof. intros Hnull. unfold SetShaderColor. rewrite Hnull. reflexivity. Qed.

Lemma SetShaderTexture_null (textureTag : string) (this : SceneManager) :
m_pShaderManager this = None -> SetShaderTexture textureTag this = Ok this.
Proof. intros Hnull. unfold SetShaderTexture. rewrite Hnull. reflexivity. Qed.

Lemma SetTextureUVScale_null (u v : float) (this : SceneManager) :
m_pShaderManager this = None -> SetTextureUVScale u v this = Ok this.
Proof. intros Hnull. unfold SetTextureUVScale. rewrite Hnull. reflexivity. Qed.

(** [SetShaderMaterial] has no null test: with a material defined it calls
  through the null pointer. *)
Lemma SetShaderMaterial_null (materialTag : string) (material : OBJECT_MATERIAL.t)
  (this : SceneManager) :
m_objectMaterials this <> [] ->
Z.of_nat (length (m_objectMaterials this)) <= INT_MAX ->
m_pShaderManager this = None ->
SetShaderMaterial materialTag material this = Undefined NullDereference.
Proof.
intros Hne Hmax Hnull. unfold SetShaderMaterial.
rewrite FindMaterial_spec by exact Hmax.
destruct (m_objectMaterials this) as [|m ms]; [congruence|].
cbn [length]. replace (0 <? Z.of_nat (S (length ms))) with true
  by (symmetry; apply Z.ltb_lt; lia).
cbn [bind Bool.eqb]. rewrite Hnull. reflexivity.
Qed.

(** C7 (evaluation at the failing input).  With no shader attached and the
  materials of [DefineObjectMaterials] defined, [SetShaderMaterial "ball"]
  is not a no-op: it dereferences the null shader pointer. *)
Theorem SetShaderMaterial_null_shader_dereferences :
forall material : OBJECT_MATERIAL.t,
  SetShaderMaterial "ball" material (DefineObjectMaterials (SceneManager_new None))
  = Undefined NullDereference.
Proof. intros material. reflexivity. Qed.

(** ** The last appearance call decides the mode *)

Lemma run_calls_app (cs1 cs2 : list BinderCall) (this : SceneManager) :
  run_calls (cs1 ++ cs2) this = (do this <- run_calls cs1 this; run_calls cs2 this).
Proof.
  revert this. induction cs1 as [|c cs1 IH]; intros this; [reflexivity|].
  cbn [app run_calls]. destruct (call c this) as [this'|f]; [|reflexivity].
  cbn [bind]. apply IH.
Qed.

(** A call with a shader attached: it succeeds, writes its mode to
    [bUseTexture] and keeps the registry and the attachment. *)
Lemma call_attached (c : BinderCall) (this : SceneManager) (sh : ShaderManager) :
  registry_wf this -> m_pShaderManager this = Some sh ->
  exists this' sh',
    call c this = Ok this' /\ registry_wf this' /\
    m_pShaderManager this' = Some sh' /\
    texture_enabled this' = Some (UInt (mode_of c)).
Proof.
  intros Hwf Hsh. destruct c as [cr cg cb ca|textureTag]; cbn [call mode_of].
  - unfold SetShaderColor. rewrite Hsh.
    eexists _, _. split; [reflexivity|]. split; [exact Hwf|]. split; [reflexivity|].
    unfold texture_enabled, uniforms. cbn.
    rewrite lookup_insert_ne by discriminate. apply lookup_insert_eq.
  - unfold SetShaderTexture. rewrite Hsh.
    rewrite FindTextureSlot_spec by exact Hwf. cbn [bind].
    eexists _, _. split; [reflexivity|]. split; [exact Hwf|]. split; [reflexivity|].
    unfold texture_enabled, uniforms. cbn.
    rewrite lookup_insert_ne by discriminate. apply lookup_insert_eq.
Qed.

Lemma run_calls_attached (cs : list BinderCall) :
  forall (this : SceneManager) (sh : ShaderManager),
    registry_wf this -> m_pShaderManager this = Some sh ->
    exists this' sh',
      run_calls cs this = Ok this' /\ registry_wf this' /\
      m_pShaderManager this' = Some sh'.
Proof.
  induction cs as [|c cs IH]; intros this sh Hwf Hsh.
  - exists this, sh. repeat split; try assumption; apply Hwf.
  - destruct (call_attached c this sh Hwf Hsh) as (this1 & sh1 & Hcall & Hwf1 & Hsh1 & _).
    destruct (IH this1 sh1 Hwf1 Hsh1) as (this' & sh' & Hrun & Hwf' & Hsh').
    exists this', sh'. cbn [run_calls]. rewrite Hcall. cbn [bind].
    split; [exact Hrun|]. split; assumption.
Qed.

(** C4.  With a shader attached, after any sequence of [SetShaderColor] and
    [SetShaderTexture] calls the [bUseTexture] uniform holds the mode of the
    last call (1 after [SetShaderTexture], 0 after [SetShaderColor]),
    whatever the calls before it; the texture mode and the flat-colour mode
    are never on together. *)
Theorem texture_flag_last_call_wins :
  forall (this : SceneManager) (sh : ShaderManager)
         (cs : list BinderCall) (c : BinderCall),
    registry_wf this -> m_pShaderManager this = Some sh ->
    exists this',
      run_calls (cs ++ [c]) this = Ok this' /\
      texture_enabled this' = Some (UInt (mode_of c)) /\
      ~ (texture_mode this' /\ flat_mode this').
Proof.
  intros this sh cs c Hwf Hsh.
  destruct (run_calls_attached cs this sh Hwf Hsh) as (this1 & sh1 & Hrun & Hwf1 & Hsh1).
  destruct (call_attached c this1 sh1 Hwf1 Hsh1) as (this' & sh' & Hcall & _ & _ & Hflag).
  exists this'. rewrite run_calls_app, Hrun. cbn [bind run_calls]. rewrite Hcall.
  split; [reflexivity|]. split; [exact Hflag|].
  unfold texture_mode, flat_mode. intros [Hon Hoff]. congruence.
Qed.

(** ** Loading textures *)

Lemma registry_wf_new (pShaderManager : option ShaderManager) :
  registry_wf (SceneManager_new pShaderManager).
Proof. split; [reflexivity|cbn; lia]. Qed.

Lemma registered_tags_new (pShaderManager : option ShaderManager) :
  registered_tags (SceneManager_new pShaderManager) = [].
Proof. reflexivity. Qed.

Section TextureRegistry.

Variable stbi_load : string -> option DecodedImage.
Variable gen_texture_name : list Z -> Z.

(** A file that cannot be registered: the call fails and the scene
    manager is as before. *)
Lemma CreateGLTexture_not_loadable (filename tag : string)
    (this : SceneManager) (gl : GLContext) :
  loadable stbi_load filename = false ->
  exists gl', CreateGLTexture stbi_load gen_texture_name filename tag this gl = Ok (false, this, gl').
Proof.
  unfold loadable, CreateGLTexture. intros Hload.
  destruct (stbi_load filename) as [img|]; [|eexists; reflexivity].
  apply orb_false_elim in Hload as [-> ->]. eexists; reflexivity.
Qed.

(** A file that can be registered, with room left in the array: the call
    succeeds and stores the tag and the new handle at the first free
    entry. *)
Lemma CreateGLTexture_loadable (filename tag : string)
    (this : SceneManager) (gl : GLContext) :
  registry_wf this -> m_loadedTextures this < 16 ->
  loadable stbi_load filename = true ->
  exists gl',
    CreateGLTexture stbi_load gen_texture_name filename tag this gl =
    Ok (true,
        with_textures
          (<[Z.to_nat (m_loadedTextures this) :=
               TEXTURE_INFO.Build tag (gen_texture_name (live_textures gl))]>
             (m_textureIDs this))
          (m_loadedTextures this + 1) this,
        gl').
Proof.
  intros [Hlen Hn] Hroom. unfold loadable, CreateGLTexture. intros Hload.
  destruct (stbi_load filename) as [img|]; [|discriminate].
  destruct (lookup_lt_is_Some_2 (m_textureIDs this) (Z.to_nat (m_loadedTextures this)))
    as [e He]; [lia|].
  assert (Hregister : forall gl0 : GLContext,
    (do arr <- array_update (m_textureIDs this) (m_loadedTextures this)
                 (set_ID (gen_texture_name (live_textures gl)));
     do arr <- array_update arr (m_loadedTextures this) (set_tag tag);
     do n <- int_incr (m_loadedTextures this);
     Ok (true, with_textures arr n this, gl0)) =
    Ok (true,
        with_textures
          (<[Z.to_nat (m_loadedTextures this) :=
               TEXTURE_INFO.Build tag (gen_texture_name (live_textures gl))]>
             (m_textureIDs this))
          (m_loadedTextures this + 1) this,
        gl0)).
  { intros gl0. unfold array_update, array_read, int_incr.
    replace (m_loadedTextures this <? 0) with false by (symmetry; apply Z.ltb_ge; lia).
    rewrite He. cbn [bind].
    rewrite list_lookup_insert_eq by lia. cbn [bind].
    replace (m_loadedTextures this <? INT_MAX) with true
      by (symmetry; apply Z.ltb_lt; unfold INT_MAX; lia).
    cbn [bind]. rewrite list_insert_insert_eq. reflexivity. }
  destruct (colorChannels img =? 3).
  - eexists. apply Hregister.
  - destruct (colorChannels img =? 4); [|discriminate].
    eexists. apply Hregister.
Qed.

(** A call that returns [true] was given a file that can be registered. *)
Lemma CreateGLTexture_true_loadable (filename tag : string)
    (this this' : SceneManager) (gl gl' : GLContext) :
  CreateGLTexture stbi_load gen_texture_name filename tag this gl = Ok (true, this', gl') ->
  loadable stbi_load filename = true.
Proof.
  intros Hcall. destruct (loadable stbi_load filename) eqn:Hload; [reflexivity|].
  destruct (CreateGLTexture_not_loadable filename tag this gl Hload) as [gl0 Hfail].
  rewrite Hfail in Hcall. discriminate.
Qed.

Lemma registered_append (tag : string) (id : Z) (this : SceneManager) :
  registry_wf this -> m_loadedTextures this < 16 ->
  registered
    (with_textures
       (<[Z.to_nat (m_loadedTextures this) := TEXTURE_INFO.Build tag id]>
          (m_textureIDs this))
       (m_loadedTextures this + 1) this)
  = (registered this ++ [TEXTURE_INFO.Build tag id])%list.
Proof.
  intros [Hlen Hn] Hroom. unfold registered. cbn [m_textureIDs m_loadedTextures with_textures].
  replace (Z.to_nat (m_loadedTextures this + 1))
    with (S (Z.to_nat (m_loadedTextures this))) by lia.
  erewrite take_S_r by (apply list_lookup_insert_eq; lia).
  rewrite take_insert_ge by lia. reflexivity.
Qed.

Lemma registry_wf_append (tag : string) (id : Z) (this : SceneManager) :
  registry_wf this -> m_loadedTextures this < 16 ->
  registry_wf
    (with_textures
       (<[Z.to_nat (m_loadedTextures this) := TEXTURE_INFO.Build tag id]>
          (m_textureIDs this))
       (m_loadedTextures this + 1) this).
Proof.
  intros [Hlen Hn] Hroom. split; cbn [m_textureIDs m_loadedTextures with_textures].
  - rewrite length_insert. exact Hlen.
  - lia.
Qed.

(** A run of loads that fits the array goes through and registers exactly
    the loadable requests, in order, after the entries already there. *)
Lemma load_textures_registered (requests : list (string * string)) :
  forall (this : SceneManager) (gl : GLContext),
    registry_wf this ->
    m_loadedTextures this + Z.of_nat (length (loaded_tags stbi_load requests)) <= 16 ->
    exists this' gl',
      load_textures stbi_load gen_texture_name requests this gl = Ok (this', gl') /\
      registry_wf this' /\
      registered_tags this' = (registered_tags this ++ loaded_tags stbi_load requests)%list.
Proof.
  induction requests as [|[filename tag] requests IH]; intros this gl Hwf Hfit.
  - exists this, gl. split; [reflexivity|]. split; [exact Hwf|].
    unfold loaded_tags. cbn. rewrite app_nil_r. reflexivity.
  - cbn [load_textures]. unfold loaded_tags in *. rewrite filter_cons in *.
    cbn [fst] in *. destruct (loadable stbi_load filename) eqn:Hload.
    + rewrite decide_True in * by reflexivity. cbn [fmap list_fmap snd length] in *.
      assert (Hroom : m_loadedTextures this < 16) by lia.
      destruct (CreateGLTexture_loadable filename tag this gl Hwf Hroom Hload)
        as [gl1 Hcall].
      rewrite Hcall. cbn [bind].
      destruct (IH _ gl1
                  (registry_wf_append tag (gen_texture_name (live_textures gl))
                     this Hwf Hroom))
        as (this' & gl' & Hrun & Hwf' & Htags).
      { cbn [m_loadedTextures with_textures]. lia. }
      exists this', gl'. split; [exact Hrun|]. split; [exact Hwf'|].
      rewrite Htags. unfold registered_tags.
      rewrite registered_append by assumption.
      rewrite fmap_app. cbn [fmap list_fmap TEXTURE_INFO.tag].
      rewrite <- app_assoc. reflexivity.
    + rewrite decide_False in * by discriminate.
      destruct (CreateGLTexture_not_loadable filename tag this gl Hload) as [gl1 Hcall].
      rewrite Hcall. cbn [bind].
      apply IH; assumption.
Qed.

End TextureRegistry.

(** ** Slot indices and insertion order *)

Lemma slot_of_app_first (tag : string) (before after : list string) :
  tag ∉ before ->
  slot_of tag (before ++ tag :: after)%list = Z.of_nat (length before).
Proof.
  intros Hnot. unfold slot_of.
  rewrite list_find_app_r.
  - cbn [list_find]. rewrite decide_True by reflexivity.
    cbn [fmap option_fmap option_map prod_map fst snd id]. lia.
  - apply list_find_None. apply Forall_forall. intros t Ht ->. exact (Hnot Ht).
Qed.

Lemma slot_of_app_found (tag : string) (tags more : list string) :
  slot_of tag tags <> -1 -> slot_of tag (tags ++ more)%list = slot_of tag tags.
Proof.
  unfold slot_of. intros Hfound.
  destruct (list_find _ tags) as [[j t]|] eqn:Hfind; [|congruence].
  erewrite list_find_app_l by exact Hfind. reflexivity.
Qed.

Lemma loaded_tags_app (stbi_load : string -> option DecodedImage)
    (before : list (string * string)) (filename tag : string)
    (after : list (string * string)) :
  loadable stbi_load filename = true ->
  loaded_tags stbi_load (before ++ (filename, tag) :: after)%list =
  (loaded_tags stbi_load before ++ tag :: loaded_tags stbi_load after)%list.
Proof.
  intros Hload. unfold loaded_tags.
  rewrite filter_app, filter_cons. cbn [fst].
  rewrite decide_True by exact Hload.
  rewrite fmap_app. reflexivity.
Qed.

(** C5.  Start from the constructor's state and run any sequence of
    [CreateGLTexture] calls that fits the sixteen entries.  For a call in
    it that loads a valid 3- or 4-channel image under a tag that no earlier
    successful load used, the run goes through and [FindTextureSlot] on that
    tag afterwards returns the number of successful loads before the call:
    its 0-based position in insertion order. *)
Theorem loaded_texture_slot_is_insertion_position :
  forall (stbi_load : string -> option DecodedImage) (gen_texture_name : list Z -> Z)
         (before after : list (string * string)) (filename tag : string)
         (pShaderManager : option ShaderManager) (gl0 : GLContext),
    loadable stbi_load filename = true ->
    tag ∉ loaded_tags stbi_load before ->
    (length (loaded_tags stbi_load (before ++ (filename, tag) :: after)) <= 16)%nat ->
    exists this gl,
      load_textures stbi_load gen_texture_name (before ++ (filename, tag) :: after)
        (SceneManager_new pShaderManager) gl0 = Ok (this, gl) /\
      FindTextureSlot tag this = Ok (Z.of_nat (length (loaded_tags stbi_load before))).
Proof.
  intros stbi_load gen_texture_name before after filename tag pShaderManager gl0
    Hload Hfresh Hfit.
  destruct (load_textures_registered stbi_load gen_texture_name
              (before ++ (filename, tag) :: after)%list
              (SceneManager_new pShaderManager) gl0
              (registry_wf_new pShaderManager))
    as (this & gl & Hrun & Hwf & Htags).
  { cbn [m_loadedTextures SceneManager_new]. lia. }
  exists this, gl. split; [exact Hrun|].
  rewrite FindTextureSlot_spec by exact Hwf.
  rewrite Htags, registered_tags_new, app_nil_l.
  rewrite loaded_tags_app by exact Hload.
  rewrite slot_of_app_first by exact Hfresh. reflexivity.
Qed.

(** C6.  For an image the decoder parses with a channel count other than 3
    and 4, [CreateGLTexture] returns [false], and the count of loaded
    textures and every entry of the array are as before the call. *)
Theorem CreateGLTexture_unsupported_channels :
  forall (stbi_load : string -> option DecodedImage) (gen_texture_name : list Z -> Z)
         (filename tag : string) (img : DecodedImage)
         (this : SceneManager) (gl : GLContext),
    stbi_load filename = Some img ->
    colorChannels img <> 3 -> colorChannels img <> 4 ->
    exists this' gl',
      CreateGLTexture stbi_load gen_texture_name filename tag this gl
      = Ok (false, this', gl') /\
      m_loadedTextures this' = m_loadedTextures this /\
      m_textureIDs this' = m_textureIDs this.
Proof.
  intros stbi_load gen_texture_name filename tag img this gl Himg H3 H4.
  unfold CreateGLTexture. rewrite Himg.
  apply Z.eqb_neq in H3, H4. rewrite H3, H4.
  eexists _, _. split; [reflexivity|]. split; reflexivity.
Qed.

(** C10.  With n < 16 textures loaded, a [CreateGLTexture] call that returns
    [true] only appends: the count becomes n + 1, each of the first n
    entries keeps its tag and its handle, and every tag that resolved to a
    slot before resolves to the same slot after. *)
Theorem CreateGLTexture_only_appends :
  forall (stbi_load : string -> option DecodedImage) (gen_texture_name : list Z -> Z)
         (filename tag : string) (this this' : SceneManager) (gl gl' : GLContext),
    registry_wf this -> m_loadedTextures this < 16 ->
    CreateGLTexture stbi_load gen_texture_name filename tag this gl
    = Ok (true, this', gl') ->
    m_loadedTextures this' = m_loadedTextures this + 1 /\
    (forall i : nat, (Z.of_nat i < m_loadedTextures this) ->
       m_textureIDs this' !! i = m_textureIDs this !! i) /\
    (forall (t : string) (slot : Z),
       FindTextureSlot t this = Ok slot -> slot <> -1 ->
       FindTextureSlot t this' = Ok slot).
Proof.
  intros stbi_load gen_texture_name filename tag this this' gl gl' Hwf Hroom Hcall.
  pose proof (CreateGLTexture_true_loadable _ _ _ _ _ _ _ _ Hcall) as Hload.
  destruct (CreateGLTexture_loadable stbi_load gen_texture_name filename tag this gl
              Hwf Hroom Hload) as [gl1 Hok].
  rewrite Hok in Hcall. injection Hcall as <- <-.
  split; [reflexivity|]. split.
  - intros i Hi. cbn [m_textureIDs with_textures].
    apply list_lookup_insert_ne. lia.
  - intros t slot Hfind Hfound.
    rewrite FindTextureSlot_spec in Hfind by exact Hwf. injection Hfind as <-.
    rewrite FindTextureSlot_spec by (apply registry_wf_append; assumption).
    unfold registered_tags. rewrite registered_append by assumption.
    rewrite fmap_app. fold (registered_tags this).
    rewrite slot_of_app_found by exact Hfound. reflexivity.
Qed.

(** ** Releasing the textures *)

Lemma DestroyGLTextures_loop (gen_texture_name : list Z -> Z) (this : SceneManager)
    (k : nat) :
  forall (fuel : nat) (i : Z) (arr : list TEXTURE_INFO.t) (gl : GLContext),
    (k <= fuel)%nat -> 0 <= i -> i + Z.of_nat k = m_loadedTextures this ->
    m_loadedTextures this <= Z.of_nat (length arr) ->
    m_loadedTextures this <= INT_MAX ->
    exists arr' gl' fresh,
      while fuel
        (fun '(i, arr, gl) => i <? m_loadedTextures this)
        (fun '(i, arr, gl) =>
           let name := gen_texture_name (live_textures gl) in
           let gl := glGenTextures name :: gl in
           do arr <- array_update arr i (set_ID name);
           do i <- int_incr i;
           Ok (i, arr, gl))
        (i, arr, gl)
      = Ok (m_loadedTextures this, arr', gl') /\
      length arr' = length arr /\
      live_textures gl' = (fresh ++ live_textures gl)%list /\
      length fresh = k.
Proof.
  induction k as [|k IH]; intros fuel i arr gl Hfuel Hi Hsum Hlen Hmax.
  - exists arr, gl, []. assert (i = m_loadedTextures this) as -> by lia.
    split; [|repeat split].
    destruct fuel; cbn [while]; rewrite Z.ltb_irrefl; reflexivity.
  - destruct fuel as [|fuel]; [lia|].
    destruct (lookup_lt_is_Some_2 arr (Z.to_nat i)) as [e He]; [lia|].
    cbn [while].
    replace (i <? m_loadedTextures this) with true by (symmetry; apply Z.ltb_lt; lia).
    unfold array_update at 1, array_read at 1.
    replace (i <? 0) with false by (symmetry; apply Z.ltb_ge; lia).
    rewrite He. cbn [bind]. unfold int_incr at 1.
    replace (i <? INT_MAX) with true by (symmetry; apply Z.ltb_lt; lia).
    cbn [bind].
    destruct (IH fuel (i + 1)
                (<[Z.to_nat i := set_ID (gen_texture_name (live_textures gl)) e]> arr)
                (glGenTextures (gen_texture_name (live_textures gl)) :: gl))
      as (arr' & gl' & fresh & Hrun & Hlen' & Hlive & Hfresh);
      [lia | lia | lia | rewrite length_insert; lia | lia |].
    exists arr', gl', (fresh ++ [gen_texture_name (live_textures gl)])%list.
    split; [exact Hrun|]. split; [rewrite Hlen'; apply length_insert|].
    split.
    + rewrite Hlive. cbn [live_textures]. rewrite <- app_assoc. reflexivity.
    + rewrite length_app, Hfresh. cbn [length]. lia.
Qed.

(** [DestroyGLTextures] goes through, and every texture that was live
    before it is live after it, along with one new name per registered
    entry. *)
Lemma DestroyGLTextures_keeps_textures (gen_texture_name : list Z -> Z)
    (this : SceneManager) (gl : GLContext) :
  registry_wf this ->
  exists this' gl' fresh,
    DestroyGLTextures gen_texture_name this gl = Ok (this', gl') /\
    registry_wf this' /\
    m_loadedTextures this' = m_loadedTextures this /\
    live_textures gl' = (fresh ++ live_textures gl)%list /\
    length fresh = Z.to_nat (m_loadedTextures this).
Proof.
  intros [Hlen Hn]. unfold DestroyGLTextures.
  destruct (DestroyGLTextures_loop gen_texture_name this
              (Z.to_nat (m_loadedTextures this)) (Z.to_nat (m_loadedTextures this))
              0 (m_textureIDs this) gl)
    as (arr' & gl' & fresh & Hrun & Hlen' & Hlive & Hfresh);
    [lia | lia | lia | lia | unfold INT_MAX; lia |].
  cbv zeta in Hrun. rewrite Hrun. cbn [bind].
  eexists _, gl', fresh. split; [reflexivity|].
  split; [split; cbn [m_textureIDs m_loadedTextures with_textures]; lia|].
  split; [reflexivity|]. split; assumption.
Qed.

(** C8 (evaluation at the failing input).  Load one texture into a fresh
    scene manager: GL holds the texture 1.  [DestroyGLTextures] then
    generates a second texture name and overwrites the stored handle with
    it; the texture 1 is still allocated, and nothing refers to it. *)
Theorem DestroyGLTextures_frees_nothing :
  exists this1 gl1 this2 gl2,
    CreateGLTexture demo_stbi_load next_texture_name "textures/ball.jpg" "ball"
      (SceneManager_new None) [] = Ok (true, this1, gl1) /\
    live_textures gl1 = [1] /\
    DestroyGLTextures next_texture_name this1 gl1 = Ok (this2, gl2) /\
    live_textures gl2 = [2; 1] /\
    m_textureIDs this2 !! 0%nat = Some (TEXTURE_INFO.Build "ball" 2).
Proof.
  eexists _, _, _, _.
  split; [reflexivity|]. split; [reflexivity|].
  split; [reflexivity|]. split; reflexivity.
Qed.

(** ** Duplicate material tags *)

Lemma push_back_materials (m : OBJECT_MATERIAL.t) (this : SceneManager) :
  m_objectMaterials (push_back m this) = (m_objectMaterials this ++ [m])%list.
Proof. reflexivity. Qed.

(** C9.  In a material registry where [first] is the first-defined entry
    with the tag and [second] a later entry with the same tag,
    [FindMaterial] returns [true] and hands back the diffuse colour, the
    specular colour and the shininess of [first]. *)
Theorem FindMaterial_first_defined_wins :
  forall (this : SceneManager) (tag : string) (material : OBJECT_MATERIAL.t)
         (earlier between later : list OBJECT_MATERIAL.t)
         (first second : OBJECT_MATERIAL.t),
    m_objectMaterials this = (earlier ++ first :: between ++ second :: later)%list ->
    (forall e, e ∈ earlier -> OBJECT_MATERIAL.tag e <> tag) ->
    OBJECT_MATERIAL.tag first = tag ->
    OBJECT_MATERIAL.tag second = tag ->
    Z.of_nat (length (m_objectMaterials this)) <= INT_MAX ->
    exists found,
      FindMaterial tag material this = Ok (true, found) /\
      OBJECT_MATERIAL.diffuseColor found = OBJECT_MATERIAL.diffuseColor first /\
      OBJECT_MATERIAL.specularColor found = OBJECT_MATERIAL.specularColor first /\
      OBJECT_MATERIAL.shininess found = OBJECT_MATERIAL.shininess first.
Proof.
  intros this tag material earlier between later first second
    Hms Hearlier Hfirst Hsecond Hmax.
  exists (copy_material first material).
  split; [|repeat split].
  rewrite FindMaterial_spec by exact Hmax. rewrite Hms.
  rewrite list_find_app_r.
  - cbn [list_find]. rewrite decide_True by exact Hfirst.
    destruct earlier; reflexivity.
  - apply list_find_None. apply Forall_forall. exact Hearlier.
Qed.

(** ** Concrete runs *)

(** The scene's own loads: the slots follow the order of the calls, and a
    tag that was never loaded resolves to [-1]. *)
Example LoadSceneTexture_slots :
  exists this gl,
    LoadSceneTexture demo_stbi_load next_texture_name (SceneManager_new None) []
    = Ok (this, gl) /\
    FindTextureSlot "table" this = Ok 0 /\
    FindTextureSlot "wall" this = Ok 1 /\
    FindTextureSlot "ball" this = Ok 2 /\
    FindTextureSlot "window" this = Ok 3 /\
    FindTextureSlot "glass" this = Ok (-1).
Proof. eexists _, _. repeat split; reflexivity. Qed.

Example FindTextureSlot_empty_registry :
  FindTextureSlot "table" (SceneManager_new None) = Ok (-1).
Proof. reflexivity. Qed.

(** [SetShaderColor] then [SetShaderTexture]: texturing is on. *)
Example color_then_texture :
  exists this,
    run_calls [CallSetShaderColor f32_zero f32_zero f32_zero (f32 8388608 (-23));
               CallSetShaderTexture "table"]
      (SceneManager_new (Some {| writes := [] |})) = Ok this /\
    texture_enabled this = Some (UInt 1).
Proof. eexists. split; [reflexivity|]. vm_compute. reflexivity. Qed.

(** [SetShaderTexture] then [SetShaderColor]: texturing is off. *)
Example texture_then_color :
  exists this,
    run_calls [CallSetShaderTexture "table";
               CallSetShaderColor f32_zero f32_zero f32_zero (f32 8388608 (-23))]
      (SceneManager_new (Some {| writes := [] |})) = Ok this /\
    texture_enabled this = Some (UInt 0).
Proof. eexists. split; [reflexivity|]. vm_compute. reflexivity. Qed.

(** A second call of [DestroyGLTextures] goes through as well and
    generates yet another name. *)
Example DestroyGLTextures_twice :
  exists this1 gl1 this2 gl2 this3 gl3,
    CreateGLTexture demo_stbi_load next_texture_name "textures/ball.jpg" "ball"
      (SceneManager_new None) [] = Ok (true, this1, gl1) /\
    DestroyGLTextures next_texture_name this1 gl1 = Ok (this2, gl2) /\
    DestroyGLTextures next_texture_name this2 gl2 = Ok (this3, gl3) /\
    live_textures gl3 = [3; 2; 1].
Proof. eexists _, _, _, _, _, _. repeat split; reflexivity. Qed.

(** ** Witnesses *)

Lemma texture_flag_last_call_wins_witness :
  exists this',
    run_calls ([CallSetShaderTexture "wall";
                CallSetShaderColor f32_zero f32_zero f32_zero (f32 8388608 (-23))]
               ++ [CallSetShaderTexture "table"])
      (SceneManager_new (Some {| writes := [] |})) = Ok this' /\
    texture_enabled this' = Some (UInt (mode_of (CallSetShaderTexture "table"))) /\
    ~ (texture_mode this' /\ flat_mode this').
Proof.
  apply (texture_flag_last_call_wins
           (SceneManager_new (Some {| writes := [] |})) {| writes := [] |}).
  - split; [reflexivity|]. cbn. lia.
  - reflexivity.
Defined.

Lemma loaded_texture_slot_is_insertion_position_witness :
  exists this gl,
    load_textures demo_stbi_load next_texture_name
      (demo_requests_before ++ ("textures/ball.jpg", "ball") :: demo_requests_after)
      (SceneManager_new None) [] = Ok (this, gl) /\
    FindTextureSlot "ball" this
    = Ok (Z.of_nat (length (loaded_tags demo_stbi_load demo_requests_before))).
Proof.
  apply (loaded_texture_slot_is_insertion_position demo_stbi_load next_texture_name
           demo_requests_before demo_requests_after "textures/ball.jpg" "ball" None []).
  - reflexivity.
  - vm_compute. intros Hin. repeat (inversion Hin as [|? ? ? Hin']; subst; clear Hin; rename Hin' into Hin).
  - vm_compute. lia.
Defined.

Lemma CreateGLTexture_unsupported_channels_witness :
  exists this' gl',
    CreateGLTexture demo_stbi_load next_texture_name "textures/gray.png" "gray"
      (SceneManager_new None) [] = Ok (false, this', gl') /\
    m_loadedTextures this' = m_loadedTextures (SceneManager_new None) /\
    m_textureIDs this' = m_textureIDs (SceneManager_new None).
Proof.
  apply (CreateGLTexture_unsupported_channels demo_stbi_load next_texture_name
           "textures/gray.png" "gray" (demo_image 1) (SceneManager_new None) []).
  - reflexivity.
  - cbn. lia.
  - cbn. lia.
Defined.

Lemma CreateGLTexture_only_appends_witness :
  m_loadedTextures demo_two_loaded.1 = m_loadedTextures demo_one_loaded.1 + 1 /\
  (forall i : nat, (Z.of_nat i < m_loadedTextures demo_one_loaded.1) ->
     m_textureIDs demo_two_loaded.1 !! i = m_textureIDs demo_one_loaded.1 !! i) /\
  (forall (t : string) (slot : Z),
     FindTextureSlot t demo_one_loaded.1 = Ok slot -> slot <> -1 ->
     FindTextureSlot t demo_two_loaded.1 = Ok slot).
Proof.
  apply (CreateGLTexture_only_appends demo_stbi_load next_texture_name
           "textures/drywall.jpg" "wall"
           demo_one_loaded.1 demo_two_loaded.1 demo_one_loaded.2 demo_two_loaded.2).
  - split; [reflexivity|]. vm_compute. split; discriminate.
  - vm_compute. reflexivity.
  - reflexivity.
Defined.

Lemma FindMaterial_first_defined_wins_witness :
  exists found,
    FindMaterial "ball" woodMaterial
      (push_back secondBallMaterial (DefineObjectMaterials (SceneManager_new None)))
    = Ok (true, found) /\
    OBJECT_MATERIAL.diffuseColor found = OBJECT_MATERIAL.diffuseColor basketballMaterial /\
    OBJECT_MATERIAL.specularColor found = OBJECT_MATERIAL.specularColor basketballMaterial /\
    OBJECT_MATERIAL.shininess found = OBJECT_MATERIAL.shininess basketballMaterial.
Proof.
  apply (FindMaterial_first_defined_wins
           (push_back secondBallMaterial (DefineObjectMaterials (SceneManager_new None)))
           "ball" woodMaterial
           [] [woodMaterial; mugMaterial; metalMaterial] []
           basketballMaterial secondBallMaterial).
  - reflexivity.
  - intros e He. inversion He.
  - reflexivity.
  - reflexivity.
  - vm_compute. discriminate.
Defined.

(** ** Further properties: the texture lookups *)

Lemma registered_tags_length (this : SceneManager) :
  registry_wf this ->
  length (registered_tags this) = Z.to_nat (m_loadedTextures this).
Proof.
  intros [Hlen Hn]. unfold registered_tags, registered.
  rewrite length_fmap, length_take. lia.
Qed.

(** X1.  On a well-formed registry [FindTextureSlot] returns either [-1],
    and then no registered entry carries the tag, or the index of a
    registered entry that carries the tag and has no entry with the tag
    before it.  Entries past the count of loaded textures are never
    looked at. *)
Theorem FindTextureSlot_first_match :
  forall (tag : string) (this : SceneManager),
    registry_wf this ->
    exists slot,
      FindTextureSlot tag this = Ok slot /\
      ((slot = -1 /\ tag ∉ registered_tags this) \/
       (0 <= slot < m_loadedTextures this /\
        registered_tags this !! Z.to_nat slot = Some tag /\
        forall j : nat, (j < Z.to_nat slot)%nat ->
          registered_tags this !! j <> Some tag)).
Proof.
  intros tag this Hwf. exists (slot_of tag (registered_tags this)).
  split; [apply FindTextureSlot_spec; exact Hwf|].
  unfold slot_of.
  destruct (list_find _ (registered_tags this)) as [[i t]|] eqn:Hfind.
  - right. apply list_find_Some in Hfind as (Hi & -> & Hfirst).
    pose proof (lookup_lt_Some _ _ _ Hi) as Hlt.
    rewrite registered_tags_length in Hlt by exact Hwf.
    rewrite Nat2Z.id. split; [lia|]. split; [exact Hi|].
    intros j Hj Hjt. exact (Hfirst j tag Hjt Hj eq_refl).
  - left. split; [reflexivity|].
    apply list_find_None in Hfind. rewrite Forall_forall in Hfind.
    intros Hin. exact (Hfind tag Hin eq_refl).
Qed.

Lemma FindTextureID_spec (tag : string) (this : SceneManager) :
  registry_wf this ->
  FindTextureID tag this =
  Ok (match list_find (fun e => TEXTURE_INFO.tag e = tag) (registered this) with
      | Some (_, e) => int_of_GLuint (TEXTURE_INFO.ID e)
      | None => -1
      end).
Proof.
  intros [Hlen Hn]. unfold FindTextureID.
  pose proof (scan_while (m_textureIDs this) (m_loadedTextures this)
                TEXTURE_INFO.tag tag
                (fun _ entry _ => int_of_GLuint (TEXTURE_INFO.ID entry))) as Hscan.
  cbv beta in Hscan.
  rewrite (Hscan ltac:(lia) ltac:(unfold INT_MAX; lia)
             (Z.to_nat (m_loadedTextures this)) _ 0 (-1)) by lia.
  cbn [bind]. unfold registered. cbn [Z.to_nat drop].
  destruct (list_find _ _) as [[j e]|]; reflexivity.
Qed.

(** X2.  [FindTextureID] and [FindTextureSlot] agree: both return [-1]
    when no registered entry carries the tag, and otherwise the slot is
    the index of an entry with the tag and the ID is that entry's handle,
    read as an [int]. *)
Theorem FindTextureID_is_handle_at_slot :
  forall (tag : string) (this : SceneManager),
    registry_wf this ->
    exists slot id,
      FindTextureSlot tag this = Ok slot /\
      FindTextureID tag this = Ok id /\
      ((slot = -1 /\ id = -1 /\ tag ∉ registered_tags this) \/
       (exists e,
          0 <= slot /\
          registered this !! Z.to_nat slot = Some e /\
          TEXTURE_INFO.tag e = tag /\
          id = int_of_GLuint (TEXTURE_INFO.ID e))).
Proof.
  intros tag this Hwf.
  rewrite FindTextureSlot_spec, FindTextureID_spec by exact Hwf.
  rewrite slot_of_registered.
  destruct (list_find _ (registered this)) as [[i e]|] eqn:Hfind.
  - eexists _, _. split; [reflexivity|]. split; [reflexivity|].
    right. apply list_find_Some in Hfind as (Hi & Htag & _).
    exists e. rewrite Nat2Z.id. split; [lia|]. repeat split; assumption.
  - eexists _, _. split; [reflexivity|]. split; [reflexivity|].
    left. split; [reflexivity|]. split; [reflexivity|].
    apply list_find_None in Hfind. rewrite Forall_forall in Hfind.
    unfold registered_tags. intros Hin.
    apply list_elem_of_fmap in Hin as (e & He & Hin).
    exact (Hfind e Hin (eq_sym He)).
Qed.

(** ** Further properties: loading *)

(** The three ways a [CreateGLTexture] call ends on a well-formed
    registry, with the GL calls each leaves behind. *)
Lemma CreateGLTexture_cases (stbi_load : string -> option DecodedImage)
    (gen_texture_name : list Z -> Z) (filename tag : string)
    (this : SceneManager) (gl : GLContext) :
  registry_wf this ->
  CreateGLTexture stbi_load gen_texture_name filename tag this gl =
  match stbi_load filename with
  | None => Ok (false, this, gl)
  | Some img =>
      let textureID := gen_texture_name (live_textures gl) in
      if (colorChannels img =? 3) || (colorChannels img =? 4) then
        if m_loadedTextures this <? 16 then
          Ok (true,
              with_textures
                (<[Z.to_nat (m_loadedTextures this) := TEXTURE_INFO.Build tag textureID]>
                   (m_textureIDs this))
                (m_loadedTextures this + 1) this,
              (texture_upload_calls img ++ texture_setup_calls textureID ++ gl)%list)
        else Undefined OutOfBounds
      else Ok (false, this, (texture_setup_calls textureID ++ gl)%list)
  end.
Proof.
  intros [Hlen Hn]. unfold CreateGLTexture.
  destruct (stbi_load filename) as [img|]; [|reflexivity].
  cbv zeta.
  assert (Hregister : forall gl0 : GLContext,
    (do arr <- array_update (m_textureIDs this) (m_loadedTextures this)
                 (set_ID (gen_texture_name (live_textures gl)));
     do arr <- array_update arr (m_loadedTextures this) (set_tag tag);
     do n <- int_incr (m_loadedTextures this);
     Ok (true, with_textures arr n this, gl0)) =
    if m_loadedTextures this <? 16 then
      Ok (true,
          with_textures
            (<[Z.to_nat (m_loadedTextures this) :=
                 TEXTURE_INFO.Build tag (gen_texture_name (live_textures gl))]>
               (m_textureIDs this))
            (m_loadedTextures this + 1) this,
          gl0)
    else Undefined OutOfBounds).
  { intros gl0. unfold array_update, array_read, int_incr.
    replace (m_loadedTextures this <? 0) with false by (symmetry; apply Z.ltb_ge; lia).
    destruct (Z.ltb_spec (m_loadedTextures this) 16) as [Hroom|Hfull].
    - destruct (lookup_lt_is_Some_2 (m_textureIDs this)
                  (Z.to_nat (m_loadedTextures this))) as [e He]; [lia|].
      rewrite He. cbn [bind].
      rewrite list_lookup_insert_eq by lia. cbn [bind].
      replace (m_loadedTextures this <? INT_MAX) with true
        by (symmetry; apply Z.ltb_lt; unfold INT_MAX; lia).
      cbn [bind]. rewrite list_insert_insert_eq. reflexivity.
    - rewrite (lookup_ge_None_2 (m_textureIDs this)) by lia. reflexivity. }
  unfold texture_upload_calls.
  destruct (colorChannels img =? 3); cbn [orb].
  - rewrite Hregister. destruct (m_loadedTextures this <? 16); reflexivity.
  - destruct (colorChannels img =? 4).
    + rewrite Hregister. destruct (m_loadedTextures this <? 16); reflexivity.
    + reflexivity.
Qed.

Lemma live_textures_setup (textureID : Z) (gl : GLContext) :
  live_textures (texture_setup_calls textureID ++ gl)%list = textureID :: live_textures gl.
Proof. reflexivity. Qed.

Lemma live_textures_upload (img : DecodedImage) (gl : GLContext) :
  live_textures (texture_upload_calls img ++ gl)%list = live_textures gl.
Proof. unfold texture_upload_calls. destruct (colorChannels img =? 3); reflexivity. Qed.

(** X3.  Load, then look up.  On a well-formed registry with room, loading
    a 3- or 4-channel image under a tag that is not registered yet succeeds;
    afterwards [FindTextureSlot] returns the count of textures loaded before
    the call and [FindTextureID] returns the texture name GL generated for
    the call (a name below [2^31], so that it reads back unchanged as an
    [int]), and GL holds that texture. *)
Theorem CreateGLTexture_then_lookups :
  forall (stbi_load : string -> option DecodedImage) (gen_texture_name : list Z -> Z)
         (filename tag : string) (this : SceneManager) (gl : GLContext),
    registry_wf this -> m_loadedTextures this < 16 ->
    loadable stbi_load filename = true ->
    tag ∉ registered_tags this ->
    0 <= gen_texture_name (live_textures gl) < 2 ^ 31 ->
    exists this' gl',
      CreateGLTexture stbi_load gen_texture_name filename tag this gl
      = Ok (true, this', gl') /\
      FindTextureSlot tag this' = Ok (m_loadedTextures this) /\
      FindTextureID tag this' = Ok (gen_texture_name (live_textures gl)) /\
      gen_texture_name (live_textures gl) ∈ live_textures gl'.
Proof.
  intros stbi_load gen_texture_name filename tag this gl Hwf Hroom Hload Hfresh Hname.
  rewrite CreateGLTexture_cases by exact Hwf.
  unfold loadable in Hload. destruct (stbi_load filename) as [img|]; [|discriminate].
  cbv zeta. rewrite Hload.
  replace (m_loadedTextures this <? 16) with true by (symmetry; apply Z.ltb_lt; lia).
  eexists _, _. split; [reflexivity|].
  pose proof (registry_wf_append tag (gen_texture_name (live_textures gl)) this Hwf Hroom)
    as Hwf'.
  pose proof (registered_append tag (gen_texture_name (live_textures gl)) this Hwf Hroom)
    as Hreg.
  assert (Hnone : list_find (fun e => TEXTURE_INFO.tag e = tag) (registered this) = None).
  { apply list_find_None. apply Forall_forall. intros e He Htag.
    apply Hfresh. unfold registered_tags. rewrite <- Htag.
    apply list_elem_of_fmap_2. exact He. }
  split; [|split].
  - rewrite FindTextureSlot_spec by exact Hwf'.
    unfold registered_tags. rewrite Hreg, fmap_app. fold (registered_tags this).
    cbn [fmap list_fmap TEXTURE_INFO.tag].
    rewrite slot_of_app_first by exact Hfresh.
    rewrite registered_tags_length by exact Hwf.
    destruct Hwf as [_ Hn]. f_equal. lia.
  - rewrite FindTextureID_spec by exact Hwf'. rewrite Hreg.
    rewrite list_find_app_r by exact Hnone.
    cbn [list_find TEXTURE_INFO.tag]. rewrite decide_True by reflexivity.
    cbn [fmap option_fmap option_map prod_map snd id TEXTURE_INFO.ID].
    unfold int_of_GLuint.
    replace (gen_texture_name (live_textures gl) <? 2 ^ 31) with true
      by (symmetry; apply Z.ltb_lt; lia).
    reflexivity.
  - rewrite live_textures_upload, live_textures_setup. apply list_elem_of_here.
Qed.

(** X4.  The array has sixteen entries and nothing checks for it: a run of
    loads whose successful loads do not fit next to the textures already
    registered ends in an access outside [m_textureIDs]. *)
Theorem load_textures_overflow :
  forall (stbi_load : string -> option DecodedImage) (gen_texture_name : list Z -> Z)
         (requests : list (string * string)) (this : SceneManager) (gl : GLContext),
    registry_wf this ->
    16 < m_loadedTextures this + Z.of_nat (length (loaded_tags stbi_load requests)) ->
    load_textures stbi_load gen_texture_name requests this gl = Undefined OutOfBounds.
Proof.
  intros stbi_load gen_texture_name requests.
  induction requests as [|[filename tag] requests IH]; intros this gl Hwf Hover.
  - destruct Hwf as [_ Hn]. cbn in Hover. lia.
  - cbn [load_textures]. rewrite CreateGLTexture_cases by exact Hwf.
    unfold loaded_tags in *. rewrite filter_cons in Hover. cbn [fst] in Hover.
    destruct (loadable stbi_load filename) eqn:Hload.
    + rewrite decide_True in Hover by reflexivity.
      cbn [fmap list_fmap length] in Hover.
      unfold loadable in Hload.
      destruct (stbi_load filename) as [img|]; [|discriminate].
      cbv zeta. rewrite Hload.
      destruct (Z.ltb_spec (m_loadedTextures this) 16) as [Hroom|Hfull];
        [|reflexivity].
      cbn [bind]. apply IH.
      * apply registry_wf_append; assumption.
      * cbn [m_loadedTextures with_textures]. lia.
    + rewrite decide_False in Hover by discriminate.
      unfold loadable in Hload.
      destruct (stbi_load filename) as [img|].
      * cbv zeta. rewrite Hload. cbn [bind]. apply IH; assumption.
      * cbn [bind]. apply IH; assumption.
Qed.

(** X5.  A [CreateGLTexture] call that returns [false] leaves the scene
    manager as it was.  If the decoder could not read the file, GL is
    untouched.  If the image has an unsupported channel count, GL has by
    then generated a texture: it stays allocated and bound to the active
    unit, and no handle for it is kept. *)
Theorem CreateGLTexture_failure_effects :
  forall (stbi_load : string -> option DecodedImage) (gen_texture_name : list Z -> Z)
         (filename tag : string) (this this' : SceneManager) (gl gl' : GLContext),
    registry_wf this ->
    CreateGLTexture stbi_load gen_texture_name filename tag this gl
    = Ok (false, this', gl') ->
    this' = this /\
    ((stbi_load filename = None /\ gl' = gl) \/
     (exists img,
        stbi_load filename = Some img /\
        colorChannels img <> 3 /\ colorChannels img <> 4 /\
        live_textures gl' = gen_texture_name (live_textures gl) :: live_textures gl /\
        texture_binding_2d gl' (active_texture gl)
        = gen_texture_name (live_textures gl))).
Proof.
  intros stbi_load gen_texture_name filename tag this this' gl gl' Hwf Hcall.
  rewrite CreateGLTexture_cases in Hcall by exact Hwf.
  destruct (stbi_load filename) as [img|].
  - cbv zeta in Hcall.
    destruct (colorChannels img =? 3) eqn:H3; cbn [orb] in Hcall.
    { destruct (m_loadedTextures this <? 16); discriminate. }
    destruct (colorChannels img =? 4) eqn:H4.
    { destruct (m_loadedTextures this <? 16); discriminate. }
    injection Hcall as <- <-. split; [reflexivity|]. right.
    exists img. apply Z.eqb_neq in H3, H4.
    split; [reflexivity|]. split; [exact H3|]. split; [exact H4|].
    split; [reflexivity|].
    cbn. rewrite Z.eqb_refl. reflexivity.
  - injection Hcall as <- <-. split; [reflexivity|]. left. split; reflexivity.
Qed.

Lemma CreateGLTexture_keeps_handles_live (stbi_load : string -> option DecodedImage)
    (gen_texture_name : list Z -> Z) (filename tag : string) (bReturn : bool)
    (this this' : SceneManager) (gl gl' : GLContext) :
  registry_wf this -> handles_live this gl ->
  CreateGLTexture stbi_load gen_texture_name filename tag this gl
  = Ok (bReturn, this', gl') ->
  registry_wf this' /\ handles_live this' gl'.
Proof.
  intros Hwf Hlive Hcall. rewrite CreateGLTexture_cases in Hcall by exact Hwf.
  destruct (stbi_load filename) as [img|].
  - cbv zeta in Hcall.
    destruct ((colorChannels img =? 3) || (colorChannels img =? 4)).
    + destruct (Z.ltb_spec (m_loadedTextures this) 16) as [Hroom|Hfull];
        [|discriminate].
      injection Hcall as _ <- <-.
      split; [apply registry_wf_append; assumption|].
      intros e He. rewrite registered_append in He by assumption.
      assert (Hgl : live_textures
                      (texture_upload_calls img
                       ++ texture_setup_calls (gen_texture_name (live_textures gl))
                       ++ gl)%list
                    = gen_texture_name (live_textures gl) :: live_textures gl)
        by (rewrite live_textures_upload; apply live_textures_setup).
      unfold texture_upload_calls, texture_setup_calls in Hgl.
      cbn [app] in Hgl |- *. rewrite Hgl.
      apply elem_of_app in He as [He|He].
      * apply list_elem_of_further. apply Hlive. exact He.
      * apply list_elem_of_singleton in He as ->. apply list_elem_of_here.
    + injection Hcall as _ <- <-. split; [exact Hwf|].
      intros e He. cbn [app texture_setup_calls live_textures].
      apply list_elem_of_further. apply Hlive. exact He.
  - injection Hcall as _ <- <-. split; assumption.
Qed.

(** X6.  Loading keeps the registry sound: if the registry is well-formed
    and every registered handle names a texture GL holds, the same is true
    after any run of [CreateGLTexture] calls that goes through, whichever of
    them succeed. *)
Theorem load_textures_keeps_handles_live :
  forall (stbi_load : string -> option DecodedImage) (gen_texture_name : list Z -> Z)
         (requests : list (string * string))
         (this this' : SceneManager) (gl gl' : GLContext),
    registry_wf this -> handles_live this gl ->
    load_textures stbi_load gen_texture_name requests this gl = Ok (this', gl') ->
    registry_wf this' /\ handles_live this' gl'.
Proof.
  intros stbi_load gen_texture_name requests.
  induction requests as [|[filename tag] requests IH];
    intros this this' gl gl' Hwf Hlive Hrun.
  - injection Hrun as <- <-. split; assumption.
  - cbn [load_textures] in Hrun.
    destruct (CreateGLTexture stbi_load gen_texture_name filename tag this gl)
      as [[[bReturn this1] gl1]|f] eqn:Hcall; [|discriminate].
    cbn [bind] in Hrun.
    destruct (CreateGLTexture_keeps_handles_live _ _ _ _ _ _ _ _ _ Hwf Hlive Hcall)
      as [Hwf1 Hlive1].
    exact (IH this1 this' gl1 gl' Hwf1 Hlive1 Hrun).
Qed.

(** ** Further properties: binding the textures *)

Lemma BindGLTextures_loop (this : SceneManager) (k : nat) :
  forall (fuel : nat) (i : Z) (gl : GLContext),
    (k <= fuel)%nat -> 0 <= i -> i + Z.of_nat k = m_loadedTextures this ->
    m_loadedTextures this <= Z.of_nat (length (m_textureIDs this)) ->
    m_loadedTextures this <= INT_MAX ->
    exists gl',
      while fuel
        (fun '(i, gl) => i <? m_loadedTextures this)
        (fun '(i, gl) =>
           let gl := glActiveTexture (GL_TEXTURE0 + i) :: gl in
           do entry <- array_read (m_textureIDs this) i;
           let gl := glBindTexture GL_TEXTURE_2D (TEXTURE_INFO.ID entry) :: gl in
           do i <- int_incr i;
           Ok (i, gl))
        (i, gl)
      = Ok (m_loadedTextures this, gl') /\
      live_textures gl' = live_textures gl /\
      (forall (j : Z) (e : TEXTURE_INFO.t),
         i <= j < m_loadedTextures this ->
         m_textureIDs this !! Z.to_nat j = Some e ->
         texture_binding_2d gl' (GL_TEXTURE0 + j) = TEXTURE_INFO.ID e) /\
      (forall unit : Z,
         ~ (GL_TEXTURE0 + i <= unit < GL_TEXTURE0 + m_loadedTextures this) ->
         texture_binding_2d gl' unit = texture_binding_2d gl unit).
Proof.
  induction k as [|k IH]; intros fuel i gl Hfuel Hi Hsum Hlen Hmax.
  - exists gl. assert (i = m_loadedTextures this) as -> by lia.
    split; [|split; [reflexivity|split]].
    + destruct fuel; cbn [while]; rewrite Z.ltb_irrefl; reflexivity.
    + intros j e Hj. lia.
    + intros unit _. reflexivity.
  - destruct fuel as [|fuel]; [lia|].
    destruct (lookup_lt_is_Some_2 (m_textureIDs this) (Z.to_nat i)) as [e He]; [lia|].
    cbn [while].
    replace (i <? m_loadedTextures this) with true by (symmetry; apply Z.ltb_lt; lia).
    unfold array_read at 1.
    replace (i <? 0) with false by (symmetry; apply Z.ltb_ge; lia).
    rewrite He. cbn [bind]. unfold int_incr at 1.
    replace (i <? INT_MAX) with true by (symmetry; apply Z.ltb_lt; lia).
    cbn [bind].
    destruct (IH fuel (i + 1)
                (glBindTexture GL_TEXTURE_2D (TEXTURE_INFO.ID e)
                 :: glActiveTexture (GL_TEXTURE0 + i) :: gl))
      as (gl' & Hrun & Hlive & Hbound & Hother); [lia | lia | lia | lia | lia |].
    exists gl'. split; [exact Hrun|]. split; [exact Hlive|]. split.
    + intros j e' Hj Hje.
      destruct (Z.eq_dec j i) as [->|Hne].
      * rewrite Hother by lia.
        assert (e' = e) as -> by congruence.
        cbn [texture_binding_2d active_texture].
        rewrite !Z.eqb_refl. reflexivity.
      * apply Hbound; [lia|exact Hje].
    + intros unit Hunit. rewrite Hother by lia.
      cbn [texture_binding_2d active_texture].
      rewrite Z.eqb_refl. cbn [andb].
      replace (GL_TEXTURE0 + i =? unit) with false by (symmetry; apply Z.eqb_neq; lia).
      reflexivity.
Qed.

Lemma BindGLTextures_effect :
  forall (this : SceneManager) (gl : GLContext),
    registry_wf this ->
    exists gl',
      BindGLTextures this gl = Ok gl' /\
      live_textures gl' = live_textures gl /\
      (forall (i : nat) (e : TEXTURE_INFO.t),
         registered this !! i = Some e ->
         texture_binding_2d gl' (GL_TEXTURE0 + Z.of_nat i) = TEXTURE_INFO.ID e) /\
      (forall unit : Z,
         ~ (GL_TEXTURE0 <= unit < GL_TEXTURE0 + m_loadedTextures this) ->
         texture_binding_2d gl' unit = texture_binding_2d gl unit).
Proof.
  intros this gl [Hlen Hn]. unfold BindGLTextures.
  destruct (BindGLTextures_loop this (Z.to_nat (m_loadedTextures this))
              (Z.to_nat (m_loadedTextures this)) 0 gl)
    as (gl' & Hrun & Hlive & Hbound & Hother);
    [lia | lia | lia | lia | unfold INT_MAX; lia |].
  cbv zeta in Hrun. rewrite Hrun. cbn [bind].
  exists gl'. split; [reflexivity|]. split; [exact Hlive|]. split.
  - intros i e Hi. unfold registered in Hi.
    apply lookup_take_Some in Hi as [Hie Hlt].
    apply (Hbound (Z.of_nat i) e); [lia|]. rewrite Nat2Z.id. exact Hie.
  - intros unit Hunit. apply Hother. rewrite Z.add_0_r. exact Hunit.
Qed.

(** X7.  On a well-formed registry [BindGLTextures] goes through; after it,
    for every registered entry, texture unit [GL_TEXTURE0 + i] has the
    handle of entry [i] bound to [GL_TEXTURE_2D].  It generates and frees no
    texture and leaves the binding of every other unit alone. *)
Theorem BindGLTextures_binds_each_unit :
  forall (this : SceneManager) (gl : GLContext),
    registry_wf this ->
    exists gl',
      BindGLTextures this gl = Ok gl' /\
      live_textures gl' = live_textures gl /\
      (forall (i : nat) (e : TEXTURE_INFO.t),
         registered this !! i = Some e ->
         texture_binding_2d gl' (GL_TEXTURE0 + Z.of_nat i) = TEXTURE_INFO.ID e) /\
      (forall unit : Z,
         ~ (GL_TEXTURE0 <= unit < GL_TEXTURE0 + m_loadedTextures this) ->
         texture_binding_2d gl' unit = texture_binding_2d gl unit).
Proof.
  intros this gl [Hlen Hn]. unfold BindGLTextures.
  destruct (BindGLTextures_loop this (Z.to_nat (m_loadedTextures this))
              (Z.to_nat (m_loadedTextures this)) 0 gl)
    as (gl' & Hrun & Hlive & Hbound & Hother);
    [lia | lia | lia | lia | unfold INT_MAX; lia |].
  cbv zeta in Hrun. rewrite Hrun. cbn [bind].
  exists gl'. split; [reflexivity|]. split; [exact Hlive|]. split.
  - intros i e Hi. unfold registered in Hi.
    apply lookup_take_Some in Hi as [Hie Hlt].
    apply (Hbound (Z.of_nat i) e); [lia|]. rewrite Nat2Z.id. exact Hie.
  - intros unit Hunit. apply Hother. rewrite Z.add_0_r. exact Hunit.
Qed.

(** ** Further properties: the shader state binder *)

Lemma SetShaderTexture_attached (textureTag : string) (this : SceneManager)
    (sh : ShaderManager) :
  registry_wf this -> m_pShaderManager this = Some sh ->
  SetShaderTexture textureTag this =
  Ok (with_shader
        (setSampler2DValue g_TextureValueName
           (slot_of textureTag (registered_tags this))
           (setIntValue g_UseTextureName 1 sh))
        this).
Proof.
  intros Hwf Hsh. unfold SetShaderTexture. rewrite Hsh.
  rewrite FindTextureSlot_spec by exact Hwf. reflexivity.
Qed.

(** X8.  The sampler index and the texture units fit together: for a tag
    that is registered, [SetShaderTexture] pushes as [objectTexture] the
    slot of the first entry with the tag (no registered entry before that
    slot carries the tag), and the texture unit of that number is the one
    on which [BindGLTextures] binds that entry's handle. *)
Theorem SetShaderTexture_sampler_is_bound_unit :
  forall (textureTag : string) (this : SceneManager) (sh : ShaderManager)
         (gl : GLContext),
    registry_wf this -> m_pShaderManager this = Some sh ->
    textureTag ∈ registered_tags this ->
    exists this' gl' slot e,
      SetShaderTexture textureTag this = Ok this' /\
      BindGLTextures this gl = Ok gl' /\
      uniform_of this' g_TextureValueName = Some (USampler2D slot) /\
      0 <= slot /\
      registered this !! Z.to_nat slot = Some e /\
      TEXTURE_INFO.tag e = textureTag /\
      (forall (j : nat) (earlier : TEXTURE_INFO.t),
         (j < Z.to_nat slot)%nat -> registered this !! j = Some earlier ->
         TEXTURE_INFO.tag earlier <> textureTag) /\
      texture_binding_2d gl' (GL_TEXTURE0 + slot) = TEXTURE_INFO.ID e.
Proof.
  intros textureTag this sh gl Hwf Hsh Hin.
  destruct (BindGLTextures_effect this gl Hwf) as (gl' & Hbind & _ & Hbound & _).
  rewrite (SetShaderTexture_attached textureTag this sh Hwf Hsh).
  rewrite slot_of_registered.
  destruct (list_find (fun e => TEXTURE_INFO.tag e = textureTag) (registered this))
    as [[i e]|] eqn:Hfind.
  - apply list_find_Some in Hfind as (Hi & Htag & Hfirst).
    eexists _, gl', (Z.of_nat i), e. split; [reflexivity|]. split; [exact Hbind|].
    split; [|split; [lia|split; [|split; [|split]]]].
    + unfold uniform_of, uniforms. cbn. apply lookup_insert_eq.
    + rewrite Nat2Z.id. exact Hi.
    + exact Htag.
    + rewrite Nat2Z.id. intros j earlier Hj Hje. exact (Hfirst j earlier Hje Hj).
    + apply Hbound. exact Hi.
  - exfalso. apply list_find_None in Hfind. rewrite Forall_forall in Hfind.
    unfold registered_tags in Hin.
    apply list_elem_of_fmap in Hin as (e & He & Hin).
    exact (Hfind e Hin (eq_sym He)).
Qed.

(** X9.  For a tag that is not registered, [SetShaderTexture] still turns
    texturing on and pushes the sentinel [-1] as the sampler index. *)
Theorem SetShaderTexture_unregistered_tag :
  forall (textureTag : string) (this : SceneManager) (sh : ShaderManager),
    registry_wf this -> m_pShaderManager this = Some sh ->
    textureTag ∉ registered_tags this ->
    exists this',
      SetShaderTexture textureTag this = Ok this' /\
      uniform_of this' g_UseTextureName = Some (UInt 1) /\
      uniform_of this' g_TextureValueName = Some (USampler2D (-1)).
Proof.
  intros textureTag this sh Hwf Hsh Hnot.
  rewrite (SetShaderTexture_attached textureTag this sh Hwf Hsh).
  rewrite slot_of_not_found by exact Hnot.
  eexists. split; [reflexivity|]. split.
  - unfold uniform_of, uniforms. cbn.
    rewrite lookup_insert_ne by discriminate. apply lookup_insert_eq.
  - unfold uniform_of, uniforms. cbn. apply lookup_insert_eq.
Qed.

Lemma uniform_of_write (name written : string) (v : UniformValue)
    (sh : ShaderManager) (this : SceneManager) :
  written <> name ->
  uniform_of (with_shader (set_uniform written v sh) this) name
  = uniform_of (with_shader sh this) name.
Proof.
  intros Hne. unfold uniform_of, uniforms. cbn [m_pShaderManager with_shader].
  cbn [writes set_uniform list_to_map foldr]. apply lookup_insert_ne. exact Hne.
Qed.

Lemma uniform_of_with_shader (name : string) (sh : ShaderManager) (this : SceneManager) :
  m_pShaderManager this = Some sh ->
  uniform_of (with_shader sh this) name = uniform_of this name.
Proof. intros Hsh. unfold uniform_of. rewrite Hsh. reflexivity. Qed.

(** X10.  Each operation of the binder that returns changes nothing but
    the uniforms it is there to set: the texture array, the count of loaded
    textures and the materials are as before, and so is the value of every
    uniform outside [bUseTexture]/[objectColor] for [SetShaderColor],
    [bUseTexture]/[objectTexture] for [SetShaderTexture], [UVscale] for
    [SetTextureUVScale] and the three [material.*] names for
    [SetShaderMaterial]. *)
Theorem binder_op_frame :
  forall (op : BinderOp) (this this' : SceneManager),
    run_op op this = Ok this' ->
    m_textureIDs this' = m_textureIDs this /\
    m_loadedTextures this' = m_loadedTextures this /\
    m_objectMaterials this' = m_objectMaterials this /\
    (forall name : string,
       name ∉ written_names op -> uniform_of this' name = uniform_of this name).
Proof.
  intros op this this' Hrun.
  destruct op as [cr cg cb ca|textureTag|u v|materialTag material];
    cbn [run_op written_names] in *.
  - unfold SetShaderColor in Hrun.
    destruct (m_pShaderManager this) as [sh|] eqn:Hsh; injection Hrun as <-;
      [|repeat split].
    repeat split. intros name Hname.
    apply not_elem_of_cons in Hname as [Hn1 Hname].
    apply not_elem_of_cons in Hname as [Hn2 _].
    unfold setVec4Value, setIntValue.
    rewrite !uniform_of_write by congruence.
    apply uniform_of_with_shader. exact Hsh.
  - unfold SetShaderTexture in Hrun.
    destruct (m_pShaderManager this) as [sh|] eqn:Hsh;
      [|injection Hrun as <-; repeat split].
    destruct (FindTextureSlot textureTag this) as [slot|f]; [|discriminate].
    injection Hrun as <-.
    repeat split. intros name Hname.
    apply not_elem_of_cons in Hname as [Hn1 Hname].
    apply not_elem_of_cons in Hname as [Hn2 _].
    unfold setSampler2DValue, setIntValue.
    rewrite !uniform_of_write by congruence.
    apply uniform_of_with_shader. exact Hsh.
  - unfold SetTextureUVScale in Hrun.
    destruct (m_pShaderManager this) as [sh|] eqn:Hsh; injection Hrun as <-;
      [|repeat split].
    repeat split. intros name Hname.
    apply not_elem_of_cons in Hname as [Hn1 _].
    unfold setVec2Value.
    rewrite !uniform_of_write by congruence.
    apply uniform_of_with_shader. exact Hsh.
  - unfold SetShaderMaterial in Hrun.
    destruct (0 <? Z.of_nat (length (m_objectMaterials this)));
      [|injection Hrun as <-; repeat split].
    destruct (FindMaterial materialTag material this) as [[bReturn found]|f];
      [|discriminate].
    cbn [bind] in Hrun.
    destruct bReturn; cbn [Bool.eqb] in Hrun; [|injection Hrun as <-; repeat split].
    destruct (m_pShaderManager this) as [sh|] eqn:Hsh; [|discriminate].
    injection Hrun as <-.
    repeat split. intros name Hname.
    apply not_elem_of_cons in Hname as [Hn1 Hname].
    apply not_elem_of_cons in Hname as [Hn2 Hname].
    apply not_elem_of_cons in Hname as [Hn3 _].
    unfold setFloatValue, setVec3Value.
    rewrite !uniform_of_write by congruence.
    apply uniform_of_with_shader. exact Hsh.
Qed.

(** ** Further properties: the materials *)

(** X11.  [FindMaterial] reports only whether the registry has entries:
    its result is [true] exactly when the registry is non-empty, whatever
    the tag.  The [tag] field of [material] is never written, and when no
    entry carries the tag [material] comes back as it was passed. *)
Theorem FindMaterial_true_iff_nonempty :
  forall (tag : string) (material : OBJECT_MATERIAL.t) (this : SceneManager),
    Z.of_nat (length (m_objectMaterials this)) <= INT_MAX ->
    exists (bReturn : bool) (found : OBJECT_MATERIAL.t),
      FindMaterial tag material this = Ok (bReturn, found) /\
      (bReturn = true <-> m_objectMaterials this <> []) /\
      OBJECT_MATERIAL.tag found = OBJECT_MATERIAL.tag material /\
      ((forall e, e ∈ m_objectMaterials this -> OBJECT_MATERIAL.tag e <> tag) ->
       found = material).
Proof.
  intros tag material this Hmax. rewrite FindMaterial_spec by exact Hmax.
  destruct (m_objectMaterials this) as [|m ms] eqn:Hms.
  - exists false, material. split; [reflexivity|]. split; [split; [discriminate|congruence]|].
    split; reflexivity.
  - destruct (list_find _ (m :: ms)) as [[j e]|] eqn:Hfind.
    + exists true, (copy_material e material). split; [reflexivity|].
      split; [split; [discriminate|reflexivity]|]. split; [reflexivity|].
      intros Hnone. apply list_find_Some in Hfind as (Hj & Htag & _).
      exfalso. apply (Hnone e); [|exact Htag].
      eapply list_elem_of_lookup_2. exact Hj.
    + exists true, material. split; [reflexivity|].
      split; [split; [discriminate|reflexivity]|]. split; reflexivity.
Qed.

(** X12.  With a shader attached, [SetShaderMaterial] for a tag that some
    entry carries pushes the diffuse colour, the specular colour and the
    shininess of the first such entry as the three [material.*] uniforms. *)
Theorem SetShaderMaterial_pushes_first_match :
  forall (materialTag : string) (material : OBJECT_MATERIAL.t)
         (this : SceneManager) (sh : ShaderManager)
         (earlier later : list OBJECT_MATERIAL.t) (first : OBJECT_MATERIAL.t),
    m_pShaderManager this = Some sh ->
    m_objectMaterials this = (earlier ++ first :: later)%list ->
    (forall e, e ∈ earlier -> OBJECT_MATERIAL.tag e <> materialTag) ->
    OBJECT_MATERIAL.tag first = materialTag ->
    Z.of_nat (length (m_objectMaterials this)) <= INT_MAX ->
    exists this',
      SetShaderMaterial materialTag material this = Ok this' /\
      uniform_of this' "material.diffuseColor"
      = Some (UVec3 (OBJECT_MATERIAL.diffuseColor first)) /\
      uniform_of this' "material.specularColor"
      = Some (UVec3 (OBJECT_MATERIAL.specularColor first)) /\
      uniform_of this' "material.shininess"
      = Some (UFloat (OBJECT_MATERIAL.shininess first)).
Proof.
  intros materialTag material this sh earlier later first Hsh Hms Hearlier Hfirst Hmax.
  unfold SetShaderMaterial. rewrite FindMaterial_spec by exact Hmax.
  assert (Hfind : list_find (fun e => OBJECT_MATERIAL.tag e = materialTag)
                    (m_objectMaterials this)
                  = Some (length earlier, first)).
  { rewrite Hms. rewrite list_find_app_r.
    - cbn [list_find]. rewrite decide_True by exact Hfirst. reflexivity.
    - apply list_find_None. apply Forall_forall. exact Hearlier. }
  rewrite Hfind.
  destruct (m_objectMaterials this) as [|m ms] eqn:Hlist.
  { destruct earlier; discriminate. }
  cbn [length]. replace (0 <? Z.of_nat (S (length ms))) with true
    by (symmetry; apply Z.ltb_lt; lia).
  cbn [bind Bool.eqb]. rewrite Hsh. cbn [deref bind].
  eexists. split; [reflexivity|].
  unfold uniform_of, uniforms. cbn [m_pShaderManager with_shader].
  cbn [writes setFloatValue setVec3Value set_uniform list_to_map foldr
         copy_material OBJECT_MATERIAL.diffuseColor OBJECT_MATERIAL.specularColor
         OBJECT_MATERIAL.shininess].
  split; [|split].
  - rewrite !lookup_insert_ne by discriminate. apply lookup_insert_eq.
  - rewrite lookup_insert_ne by discriminate. apply lookup_insert_eq.
  - apply lookup_insert_eq.
Qed.

Lemma FindMaterial_nonempty (tag : string) (material : OBJECT_MATERIAL.t)
    (this : SceneManager) :
  m_objectMaterials this <> [] ->
  Z.of_nat (length (m_objectMaterials this)) <= INT_MAX ->
  FindMaterial tag material this =
  Ok (true,
      match list_find (fun e => OBJECT_MATERIAL.tag e = tag) (m_objectMaterials this) with
      | Some (_, entry) => copy_material entry material
      | None => material
      end).
Proof.
  intros Hne Hmax. rewrite FindMaterial_spec by exact Hmax.
  destruct (m_objectMaterials this); [congruence|reflexivity].
Qed.

Lemma DefineObjectMaterials_materials (this : SceneManager) :
  m_objectMaterials (DefineObjectMaterials this) =
  (m_objectMaterials this
   ++ [basketballMaterial; woodMaterial; mugMaterial; metalMaterial])%list.
Proof.
  unfold DefineObjectMaterials, push_back. cbn [m_objectMaterials with_materials].
  rewrite <- !app_assoc. reflexivity.
Qed.

(** X13.  [DefineObjectMaterials] appends its four entries each time it
    runs; running it a second time changes the result of no lookup, since
    the entries of the first run come first. *)
Theorem DefineObjectMaterials_again_same_lookups :
  forall (tag : string) (material : OBJECT_MATERIAL.t) (this : SceneManager),
    Z.of_nat (length (m_objectMaterials this)) + 8 <= INT_MAX ->
    length (m_objectMaterials (DefineObjectMaterials (DefineObjectMaterials this)))
    = (length (m_objectMaterials this) + 8)%nat /\
    FindMaterial tag material (DefineObjectMaterials (DefineObjectMaterials this))
    = FindMaterial tag material (DefineObjectMaterials this).
Proof.
  intros tag material this Hmax.
  pose proof (DefineObjectMaterials_materials this) as H1.
  pose proof (DefineObjectMaterials_materials (DefineObjectMaterials this)) as H2.
  assert (Hlen1 : length (m_objectMaterials (DefineObjectMaterials this))
                  = (length (m_objectMaterials this) + 4)%nat)
    by (rewrite H1, length_app; reflexivity).
  assert (Hlen2 : length (m_objectMaterials
                            (DefineObjectMaterials (DefineObjectMaterials this)))
                  = (length (m_objectMaterials this) + 8)%nat)
    by (rewrite H2, length_app, Hlen1; cbn [length]; lia).
  split; [exact Hlen2|].
  rewrite !FindMaterial_nonempty; try lia.
  - f_equal. f_equal. rewrite H2.
    destruct (list_find (fun e => OBJECT_MATERIAL.tag e = tag)
                (m_objectMaterials (DefineObjectMaterials this)))
      as [[j e]|] eqn:Hfind.
    + erewrite list_find_app_l by exact Hfind. reflexivity.
    + rewrite list_find_app_r by exact Hfind.
      apply list_find_None in Hfind. rewrite H1 in Hfind.
      apply Forall_app in Hfind as [_ Hfour].
      rewrite (proj2 (list_find_None (fun e => OBJECT_MATERIAL.tag e = tag) _) Hfour).
      reflexivity.
  - intros Hnil. rewrite Hnil in Hlen1. cbn [length] in Hlen1. lia.
  - intros Hnil. rewrite Hnil in Hlen2. cbn [length] in Hlen2. lia.
Qed.

(** ** Further properties: releasing *)

Lemma DestroyGLTextures_loop_entries (gen_texture_name : list Z -> Z)
    (this : SceneManager) (k : nat) :
  forall (fuel : nat) (i : Z) (arr : list TEXTURE_INFO.t) (gl : GLContext),
    (k <= fuel)%nat -> 0 <= i -> i + Z.of_nat k = m_loadedTextures this ->
    m_loadedTextures this <= Z.of_nat (length arr) ->
    m_loadedTextures this <= INT_MAX ->
    exists arr' gl' fresh,
      while fuel
        (fun '(i, arr, gl) => i <? m_loadedTextures this)
        (fun '(i, arr, gl) =>
           let name := gen_texture_name (live_textures gl) in
           let gl := glGenTextures name :: gl in
           do arr <- array_update arr i (set_ID name);
           do i <- int_incr i;
           Ok (i, arr, gl))
        (i, arr, gl)
      = Ok (m_loadedTextures this, arr', gl') /\
      length arr' = length arr /\
      TEXTURE_INFO.tag <$> arr' = TEXTURE_INFO.tag <$> arr /\
      live_textures gl' = (fresh ++ live_textures gl)%list /\
      length fresh = k /\
      (forall j : nat, (j < Z.to_nat i)%nat -> arr' !! j = arr !! j) /\
      (forall (j : nat) (e : TEXTURE_INFO.t),
         (Z.to_nat i <= j < Z.to_nat (m_loadedTextures this))%nat ->
         arr' !! j = Some e -> TEXTURE_INFO.ID e ∈ fresh).
Proof.
  induction k as [|k IH]; intros fuel i arr gl Hfuel Hi Hsum Hlen Hmax.
  - exists arr, gl, []. assert (i = m_loadedTextures this) as -> by lia.
    split; [|repeat split].
    + destruct fuel; cbn [while]; rewrite Z.ltb_irrefl; reflexivity.
    + intros j e Hj. lia.
  - destruct fuel as [|fuel]; [lia|].
    destruct (lookup_lt_is_Some_2 arr (Z.to_nat i)) as [e He]; [lia|].
    cbn [while].
    replace (i <? m_loadedTextures this) with true by (symmetry; apply Z.ltb_lt; lia).
    unfold array_update at 1, array_read at 1.
    replace (i <? 0) with false by (symmetry; apply Z.ltb_ge; lia).
    rewrite He. cbn [bind]. unfold int_incr at 1.
    replace (i <? INT_MAX) with true by (symmetry; apply Z.ltb_lt; lia).
    cbn [bind].
    set (name := gen_texture_name (live_textures gl)).
    destruct (IH fuel (i + 1) (<[Z.to_nat i := set_ID name e]> arr)
                (glGenTextures name :: gl))
      as (arr' & gl' & fresh & Hrun & Hlen' & Htags & Hlive & Hfresh & Hbelow & Hnew);
      [lia | lia | lia | rewrite length_insert; lia | lia |].
    exists arr', gl', (fresh ++ [name])%list.
    split; [exact Hrun|]. split; [rewrite Hlen'; apply length_insert|].
    split; [|split; [|split; [|split]]].
    + rewrite Htags, list_fmap_insert. apply list_insert_id.
      rewrite list_lookup_fmap, He. reflexivity.
    + rewrite Hlive. cbn [live_textures]. rewrite <- app_assoc. reflexivity.
    + rewrite length_app, Hfresh. cbn [length]. lia.
    + intros j Hj. rewrite Hbelow by lia.
      apply list_lookup_insert_ne. lia.
    + intros j e' Hj Hje. apply elem_of_app.
      destruct (Nat.eq_dec j (Z.to_nat i)) as [->|Hne].
      * right. rewrite Hbelow in Hje by lia.
        rewrite list_lookup_insert_eq in Hje by lia.
        injection Hje as <-. apply list_elem_of_here.
      * left. apply (Hnew j e'); [lia|exact Hje].
Qed.

(** X14.  [DestroyGLTextures] frees nothing.  On a well-formed registry it
    goes through, the count and the tags stay (so every lookup by tag gives
    the slot it gave before), every texture GL held before the call is
    still held after it, one new texture name has been generated per
    registered entry, and the handles now stored are these new names. *)
Theorem DestroyGLTextures_never_frees :
  forall (gen_texture_name : list Z -> Z) (this : SceneManager) (gl : GLContext),
    registry_wf this ->
    exists this' gl' fresh,
      DestroyGLTextures gen_texture_name this gl = Ok (this', gl') /\
      registry_wf this' /\
      registered_tags this' = registered_tags this /\
      (forall tag, FindTextureSlot tag this' = FindTextureSlot tag this) /\
      live_textures gl' = (fresh ++ live_textures gl)%list /\
      length fresh = Z.to_nat (m_loadedTextures this) /\
      (forall e, e ∈ registered this' -> TEXTURE_INFO.ID e ∈ fresh).
Proof.
  intros gen_texture_name this gl Hwf. pose proof Hwf as [Hlen Hn].
  unfold DestroyGLTextures.
  destruct (DestroyGLTextures_loop_entries gen_texture_name this
              (Z.to_nat (m_loadedTextures this)) (Z.to_nat (m_loadedTextures this))
              0 (m_textureIDs this) gl)
    as (arr' & gl' & fresh & Hrun & Hlen' & Htags & Hlive & Hfresh & _ & Hnew);
    [lia | lia | lia | lia | unfold INT_MAX; lia |].
  cbv zeta in Hrun. rewrite Hrun. cbn [bind].
  eexists _, gl', fresh. split; [reflexivity|].
  assert (Hwf' : registry_wf (with_textures arr' (m_loadedTextures this) this))
    by (split; cbn [m_textureIDs m_loadedTextures with_textures]; lia).
  assert (Hsame : registered_tags (with_textures arr' (m_loadedTextures this) this)
                  = registered_tags this).
  { unfold registered_tags, registered.
    cbn [m_textureIDs m_loadedTextures with_textures].
    rewrite !fmap_take, Htags. reflexivity. }
  split; [exact Hwf'|]. split; [exact Hsame|].
  split; [|split; [exact Hlive|split; [exact Hfresh|]]].
  - intros tag. rewrite !FindTextureSlot_spec by assumption.
    rewrite Hsame. reflexivity.
  - intros e He. unfold registered in He.
    cbn [m_textureIDs m_loadedTextures with_textures] in He.
    apply list_elem_of_lookup in He as [j Hj].
    apply lookup_take_Some in Hj as [Hj Hlt].
    apply (Hnew j e); [cbn; lia|exact Hj].
Qed.

(** ** Further properties: preparing the scene *)

Lemma SetupSceneLights_writes (this : SceneManager) (sh : ShaderManager) :
  m_pShaderManager this = Some sh ->
  exists sh',
    SetupSceneLights this = Ok (with_shader sh' this) /\
    uniforms sh' !! g_UseLightingName = Some (UBool true) /\
    (forall (op : BinderOp) (name : string),
       name ∈ written_names op -> uniforms sh' !! name = uniforms sh !! name).
Proof.
  intros Hsh. unfold SetupSceneLights. rewrite Hsh. cbn [deref bind].
  eexists. split; [reflexivity|].
  unfold uniforms, setBoolValue, setVec3Value.
  cbn [writes set_uniform list_to_map foldr]. split.
  - rewrite !lookup_insert_ne by discriminate. apply lookup_insert_eq.
  - intros op name Hname.
    destruct op; cbn [written_names] in Hname;
      repeat (apply elem_of_cons in Hname as [->|Hname]);
      try (apply not_elem_of_nil in Hname; destruct Hname);
      rewrite !lookup_insert_ne by discriminate; reflexivity.
Qed.

(** X15.  With a shader attached [SetupSceneLights] goes through and turns
    [bUseLighting] on.  It leaves the registries alone, and it writes to
    none of the uniforms the shader state binder sets ([bUseTexture],
    [objectColor], [objectTexture], [UVscale], the three [material.*]
    names). *)
Theorem SetupSceneLights_attached :
  forall (this : SceneManager) (sh : ShaderManager),
    m_pShaderManager this = Some sh ->
    exists this',
      SetupSceneLights this = Ok this' /\
      m_textureIDs this' = m_textureIDs this /\
      m_loadedTextures this' = m_loadedTextures this /\
      m_objectMaterials this' = m_objectMaterials this /\
      uniform_of this' g_UseLightingName = Some (UBool true) /\
      (forall (op : BinderOp) (name : string),
         name ∈ written_names op -> uniform_of this' name = uniform_of this name).
Proof.
  intros this sh Hsh.
  destruct (SetupSceneLights_writes this sh Hsh) as (sh' & Hrun & Hon & Hframe).
  exists (with_shader sh' this). split; [exact Hrun|].
  split; [reflexivity|]. split; [reflexivity|]. split; [reflexivity|].
  unfold uniform_of. cbn [m_pShaderManager with_shader]. rewrite Hsh.
  split; [exact Hon|exact Hframe].
Qed.

Lemma LoadSceneTexture_as_run (stbi_load : string -> option DecodedImage)
    (gen_texture_name : list Z -> Z) (this : SceneManager) (gl : GLContext) :
  LoadSceneTexture stbi_load gen_texture_name this gl =
  (do '(this, gl) <- load_textures stbi_load gen_texture_name scene_textures this gl;
   do gl <- BindGLTextures this gl;
   Ok (this, gl)).
Proof.
  unfold LoadSceneTexture, scene_textures. cbn [load_textures].
  destruct (CreateGLTexture _ _ _ _ this gl) as [[[b1 this1] gl1]|f1];
    [|reflexivity]. cbn [bind].
  destruct (CreateGLTexture _ _ _ _ this1 gl1) as [[[b2 this2] gl2]|f2];
    [|reflexivity]. cbn [bind].
  destruct (CreateGLTexture _ _ _ _ this2 gl2) as [[[b3 this3] gl3]|f3];
    [|reflexivity]. cbn [bind].
  destruct (CreateGLTexture _ _ _ _ this3 gl3) as [[[b4 this4] gl4]|f4];
    reflexivity.
Qed.

Lemma CreateGLTexture_keeps_rest (stbi_load : string -> option DecodedImage)
    (gen_texture_name : list Z -> Z) (filename tag : string) (bReturn : bool)
    (this this' : SceneManager) (gl gl' : GLContext) :
  registry_wf this ->
  CreateGLTexture stbi_load gen_texture_name filename tag this gl
  = Ok (bReturn, this', gl') ->
  registry_wf this' /\
  m_pShaderManager this' = m_pShaderManager this /\
  m_objectMaterials this' = m_objectMaterials this.
Proof.
  intros Hwf Hcall. rewrite CreateGLTexture_cases in Hcall by exact Hwf.
  destruct (stbi_load filename) as [img|].
  - cbv zeta in Hcall.
    destruct ((colorChannels img =? 3) || (colorChannels img =? 4)).
    + destruct (Z.ltb_spec (m_loadedTextures this) 16) as [Hroom|Hfull];
        [|discriminate].
      injection Hcall as _ <- _.
      split; [apply registry_wf_append; assumption|]. split; reflexivity.
    + injection Hcall as _ <- _. split; [exact Hwf|]. split; reflexivity.
  - injection Hcall as _ <- _. split; [exact Hwf|]. split; reflexivity.
Qed.

Lemma load_textures_keeps_rest (stbi_load : string -> option DecodedImage)
    (gen_texture_name : list Z -> Z) (requests : list (string * string)) :
  forall (this this' : SceneManager) (gl gl' : GLContext),
    registry_wf this ->
    load_textures stbi_load gen_texture_name requests this gl = Ok (this', gl') ->
    m_pShaderManager this' = m_pShaderManager this /\
    m_objectMaterials this' = m_objectMaterials this.
Proof.
  induction requests as [|[filename tag] requests IH];
    intros this this' gl gl' Hwf Hrun.
  - injection Hrun as <- <-. split; reflexivity.
  - cbn [load_textures] in Hrun.
    destruct (CreateGLTexture stbi_load gen_texture_name filename tag this gl)
      as [[[bReturn this1] gl1]|f] eqn:Hcall; [|discriminate].
    cbn [bind] in Hrun.
    destruct (CreateGLTexture_keeps_rest _ _ _ _ _ _ _ _ _ Hwf Hcall)
      as (Hwf1 & Hsh1 & Hms1).
    destruct (IH this1 this' gl1 gl' Hwf1 Hrun) as [Hsh Hms].
    split; congruence.
Qed.

(** What the texture part of [PrepareScene] reaches when the loads fit. *)
Lemma LoadSceneTexture_effect (stbi_load : string -> option DecodedImage)
    (gen_texture_name : list Z -> Z) (this : SceneManager) (gl : GLContext) :
  registry_wf this ->
  m_loadedTextures this
  + Z.of_nat (length (loaded_tags stbi_load scene_textures)) <= 16 ->
  exists this' gl',
    LoadSceneTexture stbi_load gen_texture_name this gl = Ok (this', gl') /\
    registry_wf this' /\
    registered_tags this'
    = (registered_tags this ++ loaded_tags stbi_load scene_textures)%list /\
    m_pShaderManager this' = m_pShaderManager this /\
    m_objectMaterials this' = m_objectMaterials this /\
    (forall (i : nat) (e : TEXTURE_INFO.t),
       registered this' !! i = Some e ->
       texture_binding_2d gl' (GL_TEXTURE0 + Z.of_nat i) = TEXTURE_INFO.ID e).
Proof.
  intros Hwf Hfit. rewrite LoadSceneTexture_as_run.
  destruct (load_textures_registered stbi_load gen_texture_name scene_textures
              this gl Hwf Hfit) as (this1 & gl1 & Hrun & Hwf1 & Htags).
  destruct (load_textures_keeps_rest _ _ _ _ _ _ _ Hwf Hrun) as [Hsh Hms].
  destruct (BindGLTextures_effect this1 gl1 Hwf1) as (gl2 & Hbind & _ & Hbound & _).
  rewrite Hrun. cbn [bind]. rewrite Hbind. cbn [bind].
  exists this1, gl2. split; [reflexivity|].
  split; [exact Hwf1|]. split; [exact Htags|]. split; [exact Hsh|].
  split; [exact Hms|exact Hbound].
Qed.

(** X16.  [PrepareScene] with a shader attached goes through whatever the
    decoder makes of the four texture files, as long as the textures that
    do load fit the array (they always do on a fresh scene manager).  After
    it the registry is well-formed and holds the tags of the files that
    loaded, in the order of the calls, after those it held; each registered
    texture is bound to the unit of its slot; the four materials are
    appended; the five meshes have been asked for; lighting is on. *)
Theorem PrepareScene_attached :
  forall (stbi_load : string -> option DecodedImage) (gen_texture_name : list Z -> Z)
         (this : SceneManager) (sh : ShaderManager) (gl : GLContext)
         (meshes : list MeshCall),
    registry_wf this ->
    m_pShaderManager this = Some sh ->
    m_loadedTextures this
    + Z.of_nat (length (loaded_tags stbi_load scene_textures)) <= 16 ->
    exists this' gl',
      PrepareScene stbi_load gen_texture_name this gl meshes
      = Ok (this', gl',
            LoadBoxMesh :: LoadTorusMesh :: LoadCylinderMesh :: LoadSphereMesh
            :: LoadPlaneMesh :: meshes) /\
      registry_wf this' /\
      registered_tags this'
      = (registered_tags this ++ loaded_tags stbi_load scene_textures)%list /\
      (forall (i : nat) (e : TEXTURE_INFO.t),
         registered this' !! i = Some e ->
         texture_binding_2d gl' (GL_TEXTURE0 + Z.of_nat i) = TEXTURE_INFO.ID e) /\
      m_objectMaterials this'
      = (m_objectMaterials this
         ++ [basketballMaterial; woodMaterial; mugMaterial; metalMaterial])%list /\
      uniform_of this' g_UseLightingName = Some (UBool true).
Proof.
  intros stbi_load gen_texture_name this sh gl meshes Hwf Hsh Hfit.
  destruct (LoadSceneTexture_effect stbi_load gen_texture_name this gl Hwf Hfit)
    as (this1 & gl1 & Hload & Hwf1 & Htags & Hsh1 & Hms1 & Hbound).
  assert (Hsh2 : m_pShaderManager (DefineObjectMaterials this1) = Some sh)
    by (rewrite <- Hsh, <- Hsh1; reflexivity).
  destruct (SetupSceneLights_writes (DefineObjectMaterials this1) sh Hsh2)
    as (sh' & Hlights & Hon & _).
  unfold PrepareScene. rewrite Hload. cbn [bind]. cbv zeta.
  rewrite Hlights. cbn [bind].
  eexists _, gl1. split; [reflexivity|].
  split; [exact Hwf1|]. split; [exact Htags|]. split; [exact Hbound|].
  split.
  - cbn [m_objectMaterials with_shader].
    rewrite DefineObjectMaterials_materials, Hms1. reflexivity.
  - unfold uniform_of. cbn [m_pShaderManager with_shader]. exact Hon.
Qed.

(** X17.  [PrepareScene] without a shader: the textures are loaded and
    bound and the materials defined, and then [SetupSceneLights] calls
    through the null [m_pShaderManager]. *)
Theorem PrepareScene_null_shader :
  forall (stbi_load : string -> option DecodedImage) (gen_texture_name : list Z -> Z)
         (this : SceneManager) (gl : GLContext) (meshes : list MeshCall),
    registry_wf this ->
    m_pShaderManager this = None ->
    m_loadedTextures this
    + Z.of_nat (length (loaded_tags stbi_load scene_textures)) <= 16 ->
    PrepareScene stbi_load gen_texture_name this gl meshes
    = Undefined NullDereference.
Proof.
  intros stbi_load gen_texture_name this gl meshes Hwf Hsh Hfit.
  destruct (LoadSceneTexture_effect stbi_load gen_texture_name this gl Hwf Hfit)
    as (this1 & gl1 & Hload & _ & _ & Hsh1 & _ & _).
  unfold PrepareScene. rewrite Hload. cbn [bind]. cbv zeta.
  unfold SetupSceneLights.
  replace (m_pShaderManager (DefineObjectMaterials this1)) with (@None ShaderManager)
    by (rewrite <- Hsh, <- Hsh1; reflexivity).
  reflexivity.
Qed.

(** ** Further properties: loading after binding *)

(** X18.  A successful [CreateGLTexture] uses the active texture unit as
    its workbench: it leaves the active unit selected as it was, with no
    texture bound to [GL_TEXTURE_2D] on it, whatever was bound there
    before; the bindings of the other units are untouched, and GL holds one
    more texture.  (So a load made after [BindGLTextures] undoes the binding
    of the unit that was bound last.) *)
Theorem CreateGLTexture_success_unbinds_active_unit :
  forall (stbi_load : string -> option DecodedImage) (gen_texture_name : list Z -> Z)
         (filename tag : string) (this this' : SceneManager) (gl gl' : GLContext),
    registry_wf this ->
    CreateGLTexture stbi_load gen_texture_name filename tag this gl
    = Ok (true, this', gl') ->
    active_texture gl' = active_texture gl /\
    texture_binding_2d gl' (active_texture gl) = 0 /\
    (forall unit : Z, unit <> active_texture gl ->
       texture_binding_2d gl' unit = texture_binding_2d gl unit) /\
    live_textures gl' = gen_texture_name (live_textures gl) :: live_textures gl.
Proof.
  intros stbi_load gen_texture_name filename tag this this' gl gl' Hwf Hcall.
  rewrite CreateGLTexture_cases in Hcall by exact Hwf.
  destruct (stbi_load filename) as [img|]; [|discriminate].
  cbv zeta in Hcall.
  destruct ((colorChannels img =? 3) || (colorChannels img =? 4)); [|discriminate].
  destruct (m_loadedTextures this <? 16); [|discriminate].
  injection Hcall as _ <-.
  unfold texture_upload_calls, texture_setup_calls.
  destruct (colorChannels img =? 3);
    cbn [app active_texture texture_binding_2d live_textures];
    rewrite !Z.eqb_refl; cbn [andb];
    (split; [reflexivity|]; split; [reflexivity|]; split; [|reflexivity]);
    intros unit Hunit;
    replace (active_texture gl =? unit) with false
      by (symmetry; apply Z.eqb_neq; congruence);
    reflexivity.
Qed.

(** ** Witnesses of the further properties *)

Lemma FindTextureSlot_first_match_witness :
  exists slot,
    FindTextureSlot "wall" demo_two_loaded.1 = Ok slot /\
    ((slot = -1 /\ "wall" ∉ registered_tags demo_two_loaded.1) \/
     (0 <= slot < m_loadedTextures demo_two_loaded.1 /\
      registered_tags demo_two_loaded.1 !! Z.to_nat slot = Some "wall" /\
      forall j : nat, (j < Z.to_nat slot)%nat ->
        registered_tags demo_two_loaded.1 !! j <> Some "wall")).
Proof.
  apply (FindTextureSlot_first_match "wall" demo_two_loaded.1).
  split; [reflexivity|]. vm_compute. split; discriminate.
Defined.

Lemma FindTextureID_is_handle_at_slot_witness :
  exists slot id,
    FindTextureSlot "wall" demo_two_loaded.1 = Ok slot /\
    FindTextureID "wall" demo_two_loaded.1 = Ok id /\
    ((slot = -1 /\ id = -1 /\ "wall" ∉ registered_tags demo_two_loaded.1) \/
     (exists e,
        0 <= slot /\
        registered demo_two_loaded.1 !! Z.to_nat slot = Some e /\
        TEXTURE_INFO.tag e = "wall" /\
        id = int_of_GLuint (TEXTURE_INFO.ID e))).
Proof.
  apply (FindTextureID_is_handle_at_slot "wall" demo_two_loaded.1).
  split; [reflexivity|]. vm_compute. split; discriminate.
Defined.

Lemma CreateGLTexture_then_lookups_witness :
  exists this' gl',
    CreateGLTexture demo_stbi_load next_texture_name "textures/ball.jpg" "ball"
      demo_two_loaded.1 demo_two_loaded.2 = Ok (true, this', gl') /\
    FindTextureSlot "ball" this' = Ok (m_loadedTextures demo_two_loaded.1) /\
    FindTextureID "ball" this'
    = Ok (next_texture_name (live_textures demo_two_loaded.2)) /\
    next_texture_name (live_textures demo_two_loaded.2) ∈ live_textures gl'.
Proof.
  apply (CreateGLTexture_then_lookups demo_stbi_load next_texture_name
           "textures/ball.jpg" "ball" demo_two_loaded.1 demo_two_loaded.2).
  - split; [reflexivity|]. vm_compute. split; discriminate.
  - vm_compute. reflexivity.
  - reflexivity.
  - apply (bool_decide_unpack _). vm_compute. exact I.
  - vm_compute. split; [discriminate|reflexivity].
Defined.

Lemma load_textures_overflow_witness :
  load_textures demo_stbi_load next_texture_name
    (replicate 17 ("textures/ball.jpg", "ball")) (SceneManager_new None) []
  = Undefined OutOfBounds.
Proof.
  apply (load_textures_overflow demo_stbi_load next_texture_name
           (replicate 17 ("textures/ball.jpg", "ball")) (SceneManager_new None) []).
  - split; [reflexivity|]. vm_compute. split; discriminate.
  - vm_compute. reflexivity.
Defined.

Lemma CreateGLTexture_failure_effects_witness :
  SceneManager_new None = SceneManager_new None /\
  ((demo_stbi_load "textures/gray.png" = None /\
    (texture_setup_calls 1 ++ [])%list = []) \/
   (exists img,
      demo_stbi_load "textures/gray.png" = Some img /\
      colorChannels img <> 3 /\ colorChannels img <> 4 /\
      live_textures (texture_setup_calls 1 ++ [])%list
      = next_texture_name (live_textures []) :: live_textures [] /\
      texture_binding_2d (texture_setup_calls 1 ++ [])%list (active_texture [])
      = next_texture_name (live_textures []))).
Proof.
  apply (CreateGLTexture_failure_effects demo_stbi_load next_texture_name
           "textures/gray.png" "gray" (SceneManager_new None) (SceneManager_new None)
           [] (texture_setup_calls 1 ++ [])%list).
  - split; [reflexivity|]. vm_compute. split; discriminate.
  - reflexivity.
Defined.

Lemma load_textures_keeps_handles_live_witness :
  registry_wf demo_run.1 /\ handles_live demo_run.1 demo_run.2.
Proof.
  apply (load_textures_keeps_handles_live demo_stbi_load next_texture_name
           demo_requests_before (SceneManager_new None) demo_run.1 [] demo_run.2).
  - split; [reflexivity|]. vm_compute. split; discriminate.
  - intros e He. vm_compute in He. inversion He.
  - vm_compute. reflexivity.
Defined.

Lemma BindGLTextures_binds_each_unit_witness :
  exists gl',
    BindGLTextures demo_two_loaded.1 demo_two_loaded.2 = Ok gl' /\
    live_textures gl' = live_textures demo_two_loaded.2 /\
    (forall (i : nat) (e : TEXTURE_INFO.t),
       registered demo_two_loaded.1 !! i = Some e ->
       texture_binding_2d gl' (GL_TEXTURE0 + Z.of_nat i) = TEXTURE_INFO.ID e) /\
    (forall unit : Z,
       ~ (GL_TEXTURE0 <= unit < GL_TEXTURE0 + m_loadedTextures demo_two_loaded.1) ->
       texture_binding_2d gl' unit = texture_binding_2d demo_two_loaded.2 unit).
Proof.
  apply (BindGLTextures_binds_each_unit demo_two_loaded.1 demo_two_loaded.2).
  split; [reflexivity|]. vm_compute. split; discriminate.
Defined.

Lemma SetShaderTexture_sampler_is_bound_unit_witness :
  exists this' gl' slot e,
    SetShaderTexture "ball" demo_textured.1 = Ok this' /\
    BindGLTextures demo_textured.1 demo_textured.2 = Ok gl' /\
    uniform_of this' g_TextureValueName = Some (USampler2D slot) /\
    0 <= slot /\
    registered demo_textured.1 !! Z.to_nat slot = Some e /\
    TEXTURE_INFO.tag e = "ball" /\
    (forall (j : nat) (earlier : TEXTURE_INFO.t),
       (j < Z.to_nat slot)%nat -> registered demo_textured.1 !! j = Some earlier ->
       TEXTURE_INFO.tag earlier <> "ball") /\
    texture_binding_2d gl' (GL_TEXTURE0 + slot) = TEXTURE_INFO.ID e.
Proof.
  apply (SetShaderTexture_sampler_is_bound_unit "ball" demo_textured.1 demo_shader
           demo_textured.2).
  - split; [reflexivity|]. vm_compute. split; discriminate.
  - reflexivity.
  - apply (bool_decide_unpack _). vm_compute. exact I.
Defined.

Lemma SetShaderTexture_unregistered_tag_witness :
  exists this',
    SetShaderTexture "glass" demo_textured.1 = Ok this' /\
    uniform_of this' g_UseTextureName = Some (UInt 1) /\
    uniform_of this' g_TextureValueName = Some (USampler2D (-1)).
Proof.
  apply (SetShaderTexture_unregistered_tag "glass" demo_textured.1 demo_shader).
  - split; [reflexivity|]. vm_compute. split; discriminate.
  - reflexivity.
  - apply (bool_decide_unpack _). vm_compute. exact I.
Defined.

Lemma binder_op_frame_witness :
  m_textureIDs demo_after_material
  = m_textureIDs (DefineObjectMaterials (SceneManager_new (Some demo_shader))) /\
  m_loadedTextures demo_after_material
  = m_loadedTextures (DefineObjectMaterials (SceneManager_new (Some demo_shader))) /\
  m_objectMaterials demo_after_material
  = m_objectMaterials (DefineObjectMaterials (SceneManager_new (Some demo_shader))) /\
  (forall name : string,
     name ∉ written_names (OpSetShaderMaterial "wood" mugMaterial) ->
     uniform_of demo_after_material name
     = uniform_of (DefineObjectMaterials (SceneManager_new (Some demo_shader))) name).
Proof.
  apply (binder_op_frame (OpSetShaderMaterial "wood" mugMaterial)
           (DefineObjectMaterials (SceneManager_new (Some demo_shader)))
           demo_after_material).
  reflexivity.
Defined.

Lemma FindMaterial_true_iff_nonempty_witness :
  exists (bReturn : bool) (found : OBJECT_MATERIAL.t),
    FindMaterial "glass" mugMaterial (DefineObjectMaterials (SceneManager_new None))
    = Ok (bReturn, found) /\
    (bReturn = true
     <-> m_objectMaterials (DefineObjectMaterials (SceneManager_new None)) <> []) /\
    OBJECT_MATERIAL.tag found = OBJECT_MATERIAL.tag mugMaterial /\
    ((forall e, e ∈ m_objectMaterials (DefineObjectMaterials (SceneManager_new None)) ->
        OBJECT_MATERIAL.tag e <> "glass") ->
     found = mugMaterial).
Proof.
  apply (FindMaterial_true_iff_nonempty "glass" mugMaterial
           (DefineObjectMaterials (SceneManager_new None))).
  vm_compute. discriminate.
Defined.

Lemma SetShaderMaterial_pushes_first_match_witness :
  exists this',
    SetShaderMaterial "wood" mugMaterial
      (DefineObjectMaterials (SceneManager_new (Some demo_shader))) = Ok this' /\
    uniform_of this' "material.diffuseColor"
    = Some (UVec3 (OBJECT_MATERIAL.diffuseColor woodMaterial)) /\
    uniform_of this' "material.specularColor"
    = Some (UVec3 (OBJECT_MATERIAL.specularColor woodMaterial)) /\
    uniform_of this' "material.shininess"
    = Some (UFloat (OBJECT_MATERIAL.shininess woodMaterial)).
Proof.
  apply (SetShaderMaterial_pushes_first_match "wood" mugMaterial
           (DefineObjectMaterials (SceneManager_new (Some demo_shader))) demo_shader
           [basketballMaterial] [mugMaterial; metalMaterial] woodMaterial).
  - reflexivity.
  - reflexivity.
  - intros e He. apply list_elem_of_singleton in He. rewrite He. discriminate.
  - reflexivity.
  - vm_compute. discriminate.
Defined.

Lemma DefineObjectMaterials_again_same_lookups_witness :
  length (m_objectMaterials
            (DefineObjectMaterials (DefineObjectMaterials (SceneManager_new None))))
  = (length (m_objectMaterials (SceneManager_new None)) + 8)%nat /\
  FindMaterial "mug" woodMaterial
    (DefineObjectMaterials (DefineObjectMaterials (SceneManager_new None)))
  = FindMaterial "mug" woodMaterial (DefineObjectMaterials (SceneManager_new None)).
Proof.
  apply (DefineObjectMaterials_again_same_lookups "mug" woodMaterial
           (SceneManager_new None)).
  vm_compute. discriminate.
Defined.

Lemma DestroyGLTextures_never_frees_witness :
  exists this' gl' fresh,
    DestroyGLTextures next_texture_name demo_two_loaded.1 demo_two_loaded.2
    = Ok (this', gl') /\
    registry_wf this' /\
    registered_tags this' = registered_tags demo_two_loaded.1 /\
    (forall tag, FindTextureSlot tag this' = FindTextureSlot tag demo_two_loaded.1) /\
    live_textures gl' = (fresh ++ live_textures demo_two_loaded.2)%list /\
    length fresh = Z.to_nat (m_loadedTextures demo_two_loaded.1) /\
    (forall e, e ∈ registered this' -> TEXTURE_INFO.ID e ∈ fresh).
Proof.
  apply (DestroyGLTextures_never_frees next_texture_name
           demo_two_loaded.1 demo_two_loaded.2).
  split; [reflexivity|]. vm_compute. split; discriminate.
Defined.

Lemma SetupSceneLights_attached_witness :
  exists this',
    SetupSceneLights (SceneManager_new (Some demo_shader)) = Ok this' /\
    m_textureIDs this' = m_textureIDs (SceneManager_new (Some demo_shader)) /\
    m_loadedTextures this' = m_loadedTextures (SceneManager_new (Some demo_shader)) /\
    m_objectMaterials this' = m_objectMaterials (SceneManager_new (Some demo_shader)) /\
    uniform_of this' g_UseLightingName = Some (UBool true) /\
    (forall (op : BinderOp) (name : string),
       name ∈ written_names op ->
       uniform_of this' name
       = uniform_of (SceneManager_new (Some demo_shader)) name).
Proof.
  apply (SetupSceneLights_attached (SceneManager_new (Some demo_shader)) demo_shader).
  reflexivity.
Defined.

Lemma PrepareScene_attached_witness :
  exists this' gl',
    PrepareScene demo_stbi_load next_texture_name
      (SceneManager_new (Some demo_shader)) [] []
    = Ok (this', gl',
          [LoadBoxMesh; LoadTorusMesh; LoadCylinderMesh; LoadSphereMesh;
           LoadPlaneMesh]) /\
    registry_wf this' /\
    registered_tags this'
    = (registered_tags (SceneManager_new (Some demo_shader))
       ++ loaded_tags demo_stbi_load scene_textures)%list /\
    (forall (i : nat) (e : TEXTURE_INFO.t),
       registered this' !! i = Some e ->
       texture_binding_2d gl' (GL_TEXTURE0 + Z.of_nat i) = TEXTURE_INFO.ID e) /\
    m_objectMaterials this'
    = (m_objectMaterials (SceneManager_new (Some demo_shader))
       ++ [basketballMaterial; woodMaterial; mugMaterial; metalMaterial])%list /\
    uniform_of this' g_UseLightingName = Some (UBool true).
Proof.
  apply (PrepareScene_attached demo_stbi_load next_texture_name
           (SceneManager_new (Some demo_shader)) demo_shader [] []).
  - split; [reflexivity|]. vm_compute. split; discriminate.
  - reflexivity.
  - vm_compute. discriminate.
Defined.

Lemma PrepareScene_null_shader_witness :
  PrepareScene demo_stbi_load next_texture_name (SceneManager_new None) [] []
  = Undefined NullDereference.
Proof.
  apply (PrepareScene_null_shader demo_stbi_load next_texture_name
           (SceneManager_new None) [] []).
  - split; [reflexivity|]. vm_compute. split; discriminate.
  - reflexivity.
  - vm_compute. discriminate.
Defined.

Lemma CreateGLTexture_success_unbinds_active_unit_witness :
  active_texture demo_two_loaded.2 = active_texture demo_one_loaded.2 /\
  texture_binding_2d demo_two_loaded.2 (active_texture demo_one_loaded.2) = 0 /\
  (forall unit : Z, unit <> active_texture demo_one_loaded.2 ->
     texture_binding_2d demo_two_loaded.2 unit
     = texture_binding_2d demo_one_loaded.2 unit) /\
  live_textures demo_two_loaded.2
  = next_texture_name (live_textures demo_one_loaded.2)
    :: live_textures demo_one_loaded.2.
Proof.
  apply (CreateGLTexture_success_unbinds_active_unit demo_stbi_load next_texture_name
           "textures/drywall.jpg" "wall"
           demo_one_loaded.1 demo_two_loaded.1 demo_one_loaded.2 demo_two_loaded.2).
  - split; [reflexivity|]. vm_compute. split; discriminate.
  - reflexivity.
Defined.

(** ** The model matrix *)

(** Without a shader [SetTransformations] uploads nothing. *)
Lemma SetTransformations_null (cosf sinf : float -> float) (scaleXYZ : vec3)
    (XrotationDegrees YrotationDegrees ZrotationDegrees : float)
    (positionXYZ : vec3) (this : SceneManager) :
  m_pShaderManager this = None ->
  SetTransformations cosf sinf scaleXYZ XrotationDegrees YrotationDegrees
    ZrotationDegrees positionXYZ this = Ok this.
Proof. intros Hnull. unfold SetTransformations. rewrite Hnull. reflexivity. Qed.

(** [glm::radians] of 0 is 0, and of 90.0f the binary32 1.5707964. *)
Lemma glm_radians_zero : glm_radians f32_zero = f32_zero.
Proof. reflexivity. Qed.

Lemma glm_radians_ninety : glm_radians f32_ninety = f32 13176795 (-23).
Proof. reflexivity. Qed.

(** C3.  With a shader attached, [SetTransformations] uploads as the
    [model] uniform the product Translation * RotationZ * RotationY *
    RotationX * Scale, in this order, each rotation built by [glm::rotate]
    from its own angle (converted from degrees by [glm::radians]) about its
    own cardinal axis.  For a C library whose cosine and sine at 0 are 1
    and 0, the matrix for scale (2,1,1), no rotation and no translation is
    the pure scale by (2,1,1).  For a C library whose cosine and sine at
    [glm::radians(90.0f)] are the correctly rounded values, the matrix for
    a rotation of 90 degrees about Y (and at 0 as before) takes the point
    (1,0,0) to within [2^-20] of (0,0,-1). *)
Theorem SetTransformations_uploads_composition :
  forall cosf sinf : float -> float,
    (forall (scaleXYZ : vec3)
            (XrotationDegrees YrotationDegrees ZrotationDegrees : float)
            (positionXYZ : vec3) (this : SceneManager) (sh : ShaderManager),
       m_pShaderManager this = Some sh ->
       exists this',
         SetTransformations cosf sinf scaleXYZ XrotationDegrees YrotationDegrees
           ZrotationDegrees positionXYZ this = Ok this' /\
         uniform_of this' g_ModelName =
         Some (UMat4
                 (mat4_mul
                    (mat4_mul
                       (mat4_mul
                          (mat4_mul
                             (glm_translate positionXYZ)
                             (glm_rotate cosf sinf (glm_radians ZrotationDegrees)
                                (Vec3 f32_zero f32_zero f32_one)))
                          (glm_rotate cosf sinf (glm_radians YrotationDegrees)
                             (Vec3 f32_zero f32_one f32_zero)))
                       (glm_rotate cosf sinf (glm_radians XrotationDegrees)
                          (Vec3 f32_one f32_zero f32_zero)))
                    (glm_scale scaleXYZ)))) /\
    (cosf f32_zero = f32_one -> sinf f32_zero = f32_zero ->
     modelView cosf sinf (Vec3 f32_two f32_one f32_one)
       f32_zero f32_zero f32_zero (Vec3 f32_zero f32_zero f32_zero)
     = glm_scale (Vec3 f32_two f32_one f32_one)) /\
    (cosf f32_zero = f32_one -> sinf f32_zero = f32_zero ->
     cosf (glm_radians f32_ninety) = cos_radians_90 ->
     sinf (glm_radians f32_ninety) = f32_one ->
     exists image,
       mat4_mul_vec4
         (modelView cosf sinf (Vec3 f32_one f32_one f32_one)
            f32_zero f32_ninety f32_zero (Vec3 f32_zero f32_zero f32_zero))
         (Vec4 f32_one f32_zero f32_zero f32_one) = image /\
       approximately (v4_r image) f32_zero = true /\
       approximately (v4_g image) f32_zero = true /\
       approximately (v4_b image) (f32_neg 8388608 (-23)) = true).
Proof.
  intros cosf sinf. split; [|split].
  - intros scaleXYZ X Y Z positionXYZ this sh Hsh.
    unfold SetTransformations. rewrite Hsh.
    eexists. split; [reflexivity|].
    unfold uniform_of, uniforms, setMat4Value.
    cbn [m_pShaderManager with_shader writes set_uniform list_to_map foldr].
    apply lookup_insert_eq.
  - intros Hcos0 Hsin0. unfold modelView, glm_rotate.
    rewrite !glm_radians_zero, !Hcos0, !Hsin0.
    vm_compute. reflexivity.
  - intros Hcos0 Hsin0 Hcos90 Hsin90. eexists. split; [reflexivity|].
    unfold modelView, glm_rotate.
    rewrite !glm_radians_zero, !Hcos0, !Hsin0, !Hcos90, !Hsin90.
    vm_compute. repeat split; reflexivity.
Qed.

(** The translation is applied last: with scale (2,1,1) and position
    (1,0,0) the origin goes to (1,0,0), not to (2,0,0). *)
Example translation_is_outermost :
  mat4_mul_vec4
    (modelView demo_cosf demo_sinf (Vec3 f32_two f32_one f32_one)
       f32_zero f32_zero f32_zero (Vec3 f32_one f32_zero f32_zero))
    (Vec4 f32_zero f32_zero f32_zero f32_one)
  = Vec4 f32_one f32_zero f32_zero f32_one.
Proof. vm_compute. reflexivity. Qed.

(** The scale is applied first: a rotation of 90 degrees about Y after the
    scale (2,1,1) takes (1,0,0) to within [2^-20] of (0,0,-2). *)
Example scale_is_innermost :
  let image :=
    mat4_mul_vec4
      (modelView demo_cosf demo_sinf (Vec3 f32_two f32_one f32_one)
         f32_zero f32_ninety f32_zero (Vec3 f32_zero f32_zero f32_zero))
      (Vec4 f32_one f32_zero f32_zero f32_one) in
  approximately (v4_r image) f32_zero = true /\
  approximately (v4_g image) f32_zero = true /\
  approximately (v4_b image) (f32_neg 8388608 (-22)) = true.
Proof. vm_compute. repeat split; reflexivity. Qed.

Lemma SetTransformations_uploads_composition_witness :
  (exists this',
     SetTransformations demo_cosf demo_sinf (Vec3 f32_two f32_one f32_one)
       f32_zero f32_ninety f32_zero (Vec3 f32_one f32_zero f32_zero)
       (SceneManager_new (Some demo_shader)) = Ok this' /\
     uniform_of this' g_ModelName =
     Some (UMat4
             (mat4_mul
                (mat4_mul
                   (mat4_mul
                      (mat4_mul
                         (glm_translate (Vec3 f32_one f32_zero f32_zero))
                         (glm_rotate demo_cosf demo_sinf (glm_radians f32_zero)
                            (Vec3 f32_zero f32_zero f32_one)))
                      (glm_rotate demo_cosf demo_sinf (glm_radians f32_ninety)
                         (Vec3 f32_zero f32_one f32_zero)))
                   (glm_rotate demo_cosf demo_sinf (glm_radians f32_zero)
                      (Vec3 f32_one f32_zero f32_zero)))
                (glm_scale (Vec3 f32_two f32_one f32_one))))) /\
  modelView demo_cosf demo_sinf (Vec3 f32_two f32_one f32_one)
    f32_zero f32_zero f32_zero (Vec3 f32_zero f32_zero f32_zero)
  = glm_scale (Vec3 f32_two f32_one f32_one) /\
  (exists image,
     mat4_mul_vec4
       (modelView demo_cosf demo_sinf (Vec3 f32_one f32_one f32_one)
          f32_zero f32_ninety f32_zero (Vec3 f32_zero f32_zero f32_zero))
       (Vec4 f32_one f32_zero f32_zero f32_one) = image /\
     approximately (v4_r image) f32_zero = true /\
     approximately (v4_g image) f32_zero = true /\
     approximately (v4_b image) (f32_neg 8388608 (-23)) = true).
Proof.
  destruct (SetTransformations_uploads_composition demo_cosf demo_sinf)
    as (Hupload & Hscale & Hpoint).
  split; [|split].
  - apply (Hupload (Vec3 f32_two f32_one f32_one) f32_zero f32_ninety f32_zero
             (Vec3 f32_one f32_zero f32_zero)
             (SceneManager_new (Some demo_shader)) demo_shader).
    reflexivity.
  - apply Hscale; reflexivity.
  - apply Hpoint; reflexivity.
Defined.
